(** * Shallow embedding of bioconda_utils.githandler and bioconda_utils.githubhandler

    The git layer (GitHandlerBase) and the GitHub layer (GitHubHandler,
    GitHubAppHandler) are translated function by function.  Python
    exceptions become [Err] values of a result type, mutable handler state
    is threaded explicitly through a small state-and-error monad, and the
    outside world (git remotes, the GitHub API, the clock, the signing
    library) is a set of Section variables. *)

From Stdlib Require Import String Ascii ZArith.
From stdpp Require Import base gmap list strings.

Open Scope string_scope.
Set Warnings "-register-all".

(* ------------------------------------------------------------------ *)
(** ** Results, exceptions and the state/error monad *)

(** Classes of the exceptions gidgethub raises for HTTP responses. *)
Inductive http_exc :=
  | GitHubBroken            (* 5xx *)
  | BadRequest              (* 4xx defined by HTTPStatus, and its subclasses *)
  | RedirectionException    (* 3xx *)
  | HTTPException.          (* anything else that is not a success *)

(** The Python exceptions the modelled code can raise. *)
Inductive exc :=
  | RuntimeError (msg : string)
  | KeyError (msg : string)
  | ValueError (msg : string)
  | TypeError
  | IndexError
  | AttributeError
  | UnicodeDecodeError
  | OSError (path : string)
  | GitHandlerFailure (summary : string)
  | HTTPError (cls : http_exc) (status : Z).

Inductive result (A : Type) :=
  | Ok (a : A)
  | Err (e : exc).
Arguments Ok {A} a.
Arguments Err {A} e.

(** Computations over a state [S] that may raise. *)
Definition M (S A : Type) : Type := S -> result A * S.

Definition ret {S A} (a : A) : M S A := fun s => (Ok a, s).
Definition raise {S A} (e : exc) : M S A := fun s => (Err e, s).
Definition bind {S A B} (m : M S A) (k : A -> M S B) : M S B :=
  fun s => match m s with
           | (Ok a, s') => k a s'
           | (Err e, s') => (Err e, s')
           end.
Definition get {S} : M S S := fun s => (Ok s, s).
Definition put {S} (s : S) : M S unit := fun _ => (Ok tt, s).
Definition modify {S} (f : S -> S) : M S unit := fun s => (Ok tt, f s).

Notation "x <- m ;; k" := (bind m (fun x => k))
  (at level 100, m at next level, right associativity).
Notation "m ;;; k" := (bind m (fun _ => k))
  (at level 100, right associativity).

(** Decoded JSON values, as GitHub sends them and as dicts are built. *)
Inductive json :=
  | JNull
  | JBool (b : bool)
  | JInt (z : Z)
  | JStr (s : string)
  | JList (l : list json)
  | JObj (fields : list (string * json)).

(** A logging call: the level, the format string and its arguments, as
    they are stored in a [logging.LogRecord]. *)
Inductive level := DEBUG | INFO | WARNING | ERROR.
Record log_record := LogRec { lr_level : level; lr_msg : string; lr_args : list json }.

(* ------------------------------------------------------------------ *)
(** ** Python string operations *)

Module PyStr.

(** [s.startswith(p)] *)
Definition startswith (s p : string) : bool := String.prefix p s.

(** [s.endswith(p)] *)
Definition endswith (s p : string) : bool :=
  (String.length p <=? String.length s)%nat &&
  (String.substring (String.length s - String.length p) (String.length p) s =? p).

(** [p in s] for strings: substring test. *)
Fixpoint contains (p s : string) : bool :=
  String.prefix p s ||
  match s with
  | EmptyString => false
  | String _ s' => contains p s'
  end.

(** [s.split(sep)] for a one-character separator. *)
Fixpoint split (sep : ascii) (s : string) : list string :=
  match s with
  | EmptyString => [""]
  | String c s' =>
      if Ascii.eqb c sep then "" :: split sep s'
      else match split sep s' with
           | h :: t => String c h :: t
           | [] => [String c ""]
           end
  end.

(** [sep.join(parts)] *)
Fixpoint join (sep : string) (parts : list string) : string :=
  match parts with
  | [] => ""
  | [p] => p
  | p :: ps => p ++ sep ++ join sep ps
  end.

(** [s.lstrip(c)] for a one-character set. *)
Fixpoint lstrip (c : ascii) (s : string) : string :=
  match s with
  | String a s' => if Ascii.eqb a c then lstrip c s' else s
  | EmptyString => EmptyString
  end.

(** [s[n:]] *)
Definition drop (n : nat) (s : string) : string := String.substring n (String.length s - n) s.

(** [s[-1]]: raises [IndexError] on the empty string. *)
Definition last_char (s : string) : result ascii :=
  match String.get (String.length s - 1) s with
  | Some c => if (0 <? String.length s)%nat then Ok c else Err IndexError
  | None => Err IndexError
  end.

(** [s[:-1]] *)
Definition drop_last (s : string) : string := String.substring 0 (String.length s - 1) s.

(** [sep * n] *)
Fixpoint repeat_str (s : string) (n : nat) : string :=
  match n with O => "" | S n' => s ++ repeat_str s n' end.

(** Decimal digits of [z >= 0], prepended to [acc]; [fuel] bounds the
    number of digits (64 covers every integer the code handles). *)
Fixpoint z_digits (fuel : nat) (z : Z) (acc : string) : string :=
  match fuel with
  | O => acc
  | S f =>
      let acc' := String (ascii_of_nat (48 + Z.to_nat (z mod 10))) acc in
      if (z <? 10)%Z then acc' else z_digits f (z / 10)%Z acc'
  end.

(** [str(z)] for an int. *)
Definition str_Z (z : Z) : string :=
  if (z <? 0)%Z then "-" ++ z_digits 64 (- z)%Z "" else z_digits 64 z "".

End PyStr.

(* ------------------------------------------------------------------ *)
(** ** posixpath *)

Module PosixPath.
Import PyStr.

Definition isabs (p : string) : bool := startswith p "/".

(** [posixpath.join(a, b)] *)
Definition join (a b : string) : string :=
  if startswith b "/" then b
  else if (a =? "") || endswith a "/" then a ++ b
  else a ++ "/" ++ b.

(** [posixpath.normpath]: a POSIX path keeps two leading slashes, while
    three or more collapse to one. *)
Definition normpath (path : string) : string :=
  if path =? "" then "." else
  let initial_slashes : nat :=
    if startswith path "/" then
      if startswith path "//" && negb (startswith path "///") then 2 else 1
    else 0 in
  (* [new_comps] is kept reversed: its head is [new_comps[-1]] *)
  let step (new_comps : list string) (comp : string) : list string :=
    if (comp =? "") || (comp =? ".") then new_comps
    else if negb (comp =? "..")
            || (Nat.eqb initial_slashes 0 && match new_comps with [] => true | _ => false end)
            || match new_comps with c :: _ => c =? ".." | [] => false end
    then comp :: new_comps
    else match new_comps with _ :: t => t | [] => [] end in
  let new_comps := fold_left step (PyStr.split "/" path) [] in
  let p := PyStr.join "/" (rev new_comps) in
  let p := repeat_str "/" initial_slashes ++ p in
  if p =? "" then "." else p.

(** [os.path.abspath], with [os.getcwd()] passed as [cwd]. *)
Definition abspath (cwd path : string) : string :=
  normpath (if isabs path then path else join cwd path).

End PosixPath.

(* ------------------------------------------------------------------ *)
(** ** githandler.py: GitHandlerBase *)

Module GitHandler.
Import PyStr.

(** A configured git remote: its name and the URLs [r.urls] yields. *)
Record remote := Remote { r_name : string; r_urls : list string }.

(** One entry printed by [git log --oneline --decorate]. *)
Record log_entry := LogEntry {
  le_hash : string;               (* abbreviated commit id *)
  le_decorations : list string;   (* ref names, e.g. "HEAD -> b", "origin/b", "tag: v1" *)
  le_subject : string }.

(** [git.PushInfo] as returned by [Remote.push]. *)
Record push_info := PushInfo { pi_flags : Z; pi_summary : string }.


(** The repository as the handler sees it: trees are maps from file path
    to contents; [rs_commits] lists (message, tree) newest first;
    [rs_pushes] lists (remote name, refspec) newest first. *)
Record repo_state := RepoState {
  rs_working_dir : string;
  rs_cwd : string;
  rs_remotes : list remote;
  rs_worktree : gmap string string;
  rs_index : gmap string string;
  rs_head_tree : gmap string string;
  rs_commits : list (string * gmap string string);
  rs_pushes : list (string * string);
  rs_log : list log_record }.



Definition add_push (remote_name refspec : string) (st : repo_state) : repo_state :=
  RepoState (rs_working_dir st) (rs_cwd st) (rs_remotes st) (rs_worktree st) (rs_index st)
            (rs_head_tree st) (rs_commits st) ((remote_name, refspec) :: rs_pushes st) (rs_log st).

Definition add_log (r : log_record) (st : repo_state) : repo_state :=
  RepoState (rs_working_dir st) (rs_cwd st) (rs_remotes st) (rs_worktree st) (rs_index st)
            (rs_head_tree st) (rs_commits st) (rs_pushes st) (r :: rs_log st).

Definition log (lvl : level) (msg : string) (args : list string) : M repo_state unit :=
  modify (add_log (LogRec lvl msg (map JStr args))).

(** The fields of a [GitHandlerBase] fixed by its constructor. *)
Record handler := Handler {
  dry_run : bool;
  home_remote : remote;
  fork_remote : remote }.

(** What [self.repo.remotes[desc]] yields.  [repo.remotes] is a GitPython
    [IterableList], whose [__getitem__] with a string returns
    [getattr(self, desc)]: ordinary attribute lookup runs first, so a name
    the list object itself has ("count", "index", "copy", "sort", "pop",
    "_prefix", ...) yields that attribute (e.g. the bound method
    [list.count]); only otherwise does [__getattr__] return the first item
    of that name. *)
Inductive remote_item := RemoteObj (r : remote) | ListAttribute (name : string).

(** [get_remote(desc)]; [list_attr n] tells whether ordinary attribute
    lookup finds [n] on the [IterableList] itself.  When no item has the
    name either, [__getitem__] raises [IndexError]. *)
Definition get_remote (list_attr : string -> bool) (remotes : list remote) (desc : string)
    : result remote_item :=
  if existsb (fun n => n =? desc) (map r_name remotes) then
    if list_attr desc then Ok (ListAttribute desc) else
    match find (fun r => r_name r =? desc) remotes with
    | Some r => Ok (RemoteObj r)
    | None => Err IndexError
    end
  else
    match List.filter (fun r => existsb (fun x => contains desc x) (r_urls r)) remotes with
    | [] => Err (KeyError ("No remote matching '" ++ desc ++ "' found"))
    | r :: _ => Ok (RemoteObj r)
    end.

(** [bytes.decode('ascii')] *)
Definition decode_ascii (s : string) : result string :=
  if forallb (fun c => (nat_of_ascii c <? 128)%nat) (list_ascii_of_string s) then Ok s
  else Err UnicodeDecodeError.

(** One line of [git log --oneline --decorate]. *)
Definition oneline (e : log_entry) : string :=
  le_hash e
  ++ (match le_decorations e with
      | [] => ""
      | ds => " (" ++ PyStr.join ", " ds ++ ")"
      end)
  ++ " " ++ le_subject e ++ String (ascii_of_nat 10) "".

Section Git.
(** [git log -1 ... RANGE -- PATH]: the entry git selects, if any. *)
Variable git_log_1 : string -> string -> option log_entry.
(** The result list of [Remote(name).push(refspec)]. *)
Variable push_result : string -> string -> list push_info.

(** [branch_is_current(branch, path, master)] *)
Definition branch_is_current (branch_name path master : string) : result bool :=
  let stdout := match git_log_1 (master ++ "..." ++ branch_name) path with
                | Some e => oneline e
                | None => ""
                end in
  match decode_ascii stdout with
  | Ok out => Ok (contains branch_name out)
  | Err e => Err e
  end.

(** [delete_remote_branch(branch_name)]: the push result is not inspected. *)
Definition delete_remote_branch (h : handler) (branch_name : string) : M repo_state unit :=
  if negb (dry_run h) then
    log INFO "Deleting branch %s" [branch_name] ;;;
    let _ := push_result (r_name (fork_remote h)) (":" ++ branch_name) in
    modify (add_push (r_name (fork_remote h)) (":" ++ branch_name))
  else
    log INFO "Would delete branch %s" [branch_name].

(** [read_from_branch(branch, file_name)], with [branch.commit.tree] given
    as [tree]; [tree / rel] raises [KeyError] for a missing path. *)
Definition read_from_branch (st : repo_state) (tree : gmap string string) (file_name : string)
    : result string :=
  let abs_file_name := PosixPath.abspath (rs_cwd st) file_name in
  let abs_repo_root := PosixPath.abspath (rs_cwd st) (rs_working_dir st) in
  if negb (startswith abs_file_name abs_repo_root) then
    Err (RuntimeError ("File " ++ abs_file_name ++ " not inside " ++ abs_repo_root))
  else
    let rel_file_name := lstrip "/" (drop (String.length abs_repo_root) abs_file_name) in
    match tree !! rel_file_name with
    | Some data => Ok data
    | None => Err (KeyError rel_file_name)
    end.





End Git.

End GitHandler.

(* ------------------------------------------------------------------ *)
(** ** Python dict operations on decoded JSON objects *)

Module PyDict.

(** [d[k]] on a decoded value: [KeyError] for a missing key, [TypeError]
    for a value that is not a dict. *)
Definition getitem (d : json) (k : string) : result json :=
  match d with
  | JObj fields =>
      match find (fun kv => fst kv =? k) fields with
      | Some (_, v) => Ok v
      | None => Err (KeyError k)
      end
  | _ => Err TypeError
  end.

(** [d[k] = v] on a dict held as its list of items in insertion order. *)
Definition setitem (fields : list (string * json)) (k : string) (v : json) : list (string * json) :=
  if existsb (fun kv => fst kv =? k) fields
  then map (fun kv => if fst kv =? k then (k, v) else kv) fields
  else fields ++ [(k, v)].

(** [if x:] for an [Optional[str]] argument. *)
Definition truthy (o : option string) : bool :=
  match o with Some s => negb (s =? "") | None => false end.

End PyDict.

(* ------------------------------------------------------------------ *)
(** ** gidgethub: requests and the way responses become exceptions *)

Module Http.

Inductive auth := OAuth (token : json) | AppJWT (token : string) | NoAuth.

(** One request sent to the GitHub API: method, URL template, template
    variables, body and credentials. *)
Record request := Request {
  rq_method : string;
  rq_url : string;
  rq_vars : list (string * json);
  rq_data : json;
  rq_auth : auth }.

Record response := Response { rs_status : Z; rs_body : json }.

(** The values of Python's [http.HTTPStatus] (Python 3.11). *)
Definition http_status_codes : list Z :=
  [100; 101; 102; 103;
   200; 201; 202; 203; 204; 205; 206; 207; 208; 226;
   300; 301; 302; 303; 304; 305; 307; 308;
   400; 401; 402; 403; 404; 405; 406; 407; 408; 409; 410; 411; 412; 413; 414; 415;
   416; 417; 418; 421; 422; 423; 424; 425; 426; 428; 429; 431; 451;
   500; 501; 502; 503; 504; 505; 506; 507; 508; 510; 511]%Z.

Definition is_http_status (c : Z) : bool := existsb (Z.eqb c) http_status_codes.

(** [gidgethub.sansio.decipher_response]: 200, 201 and 204 succeed; the
    other statuses pick an exception class by range, and the exception is
    built from [http.HTTPStatus(status_code)], which raises [ValueError]
    for a code [HTTPStatus] does not define.  Every defined 4xx raises
    [BadRequest] or one of its subclasses (RateLimitExceeded for 403,
    InvalidField or ValidationError for 422), which all satisfy
    [except gidgethub.BadRequest]. *)
Definition decipher (r : response) : result json :=
  let c := rs_status r in
  if (c =? 200)%Z || (c =? 201)%Z || (c =? 204)%Z then Ok (rs_body r)
  else
    let cls := if (500 <=? c)%Z then GitHubBroken
               else if (400 <=? c)%Z then BadRequest
               else if (300 <=? c)%Z then RedirectionException
               else HTTPException in
    if is_http_status c then Err (HTTPError cls c)
    else Err (ValueError (PyStr.str_Z c ++ " is not a valid HTTPStatus")).

Definition is_bad_request (e : exc) : bool :=
  match e with HTTPError BadRequest _ => true | _ => false end.

End Http.

(** [try: m except ...]: [h e] is [Some k] when the handler catches [e]. *)
Definition catch {S A} (m : M S A) (h : exc -> option (M S A)) : M S A :=
  fun s => match m s with
           | (Err e, s') => match h e with Some k => k s' | None => (Err e, s') end
           | r => r
           end.

(** Lift a pure result into the monad. *)
Definition lift {S A} (r : result A) : M S A :=
  fun s => (r, s).

(* ------------------------------------------------------------------ *)
(** ** githubhandler.py: GitHubHandler *)

Module GitHub.
Import Http PyDict.

Definition PULLS := "/repos/{user}/{repo}/pulls{/number}{?head,base,state}".
Definition PULL_FILES := "/repos/{user}/{repo}/pulls/{number}/files".
Definition ISSUES := "/repos/{user}/{repo}/issues{/number}".
Definition COMMENTS := "/repos/{user}/{repo}/issues/{number}/comments".
Definition ORG_MEMBERS := "/orgs/{user}/members{/username}".

(** The wrapped [gidgethub.aiohttp.GitHubAPI] object. *)
Record api_obj := ApiObj { oauth_token : json; requester : string }.

(** The fields of a [GitHubHandler]; [api] is [None] until
    [create_api_object] runs. *)
Record gh_handler := GHHandler {
  token : json;
  dry_run : bool;
  var_default : list (string * json);
  api : option api_obj;
  username : option string }.

(** [GitHubHandler.__init__] *)
Definition new_handler (token : json) (dry_run : bool) (to_user to_repo : json) : gh_handler :=
  GHHandler token dry_run [("user", to_user); ("repo", to_repo)] None None.

(** [AiohttpGitHubHandler.create_api_object(session, requester)] *)
Definition create_api_object (h : gh_handler) (requester : string) : gh_handler :=
  GHHandler (token h) (dry_run h) (var_default h) (Some (ApiObj (token h) requester)) (username h).

(** [set_oauth_token(token)]: [self.api.oauth_token = token]. *)
Definition set_oauth_token (h : gh_handler) (tok : json) : result gh_handler :=
  match api h with
  | Some a => Ok (GHHandler (token h) (dry_run h) (var_default h)
                            (Some (ApiObj tok (requester a))) (username h))
  | None => Err AttributeError
  end.

(** What the handler methods change: requests sent and log records. *)
Record net := Net { requests : list request; net_log : list log_record }.

Definition log (lvl : level) (msg : string) (args : list json) : M net unit :=
  modify (fun n => Net (requests n) (LogRec lvl msg args :: net_log n)).

Section Api.
(** The GitHub API's answer to a request. *)
Variable github : request -> response.

(** A call through [self.api]: [AttributeError] before [create_api_object]. *)
Definition api_call (h : gh_handler) (meth url : string) (vars : list (string * json)) (data : json)
    : M net json :=
  match api h with
  | None => raise AttributeError
  | Some a =>
      let rq := Request meth url vars data (OAuth (oauth_token a)) in
      modify (fun n => Net (rq :: requests n) (net_log n)) ;;;
      lift (decipher (github rq))
  end.

(** [is_member(username)]; an empty or missing user name is [""]. *)
Definition is_member (h : gh_handler) (user : string) : M net bool :=
  if user =? "" then ret false else
  let var_data := setitem (var_default h) "username" (JStr user) in
  catch (api_call h "GET" ORG_MEMBERS var_data JNull ;;;
         log DEBUG "User %s IS a member of %s" [JStr user; match getitem (JObj var_data) "user" with Ok u => u | Err _ => JNull end] ;;;
         ret true)
        (fun e => if is_bad_request e then
                    Some (log DEBUG "User %s is not a member of %s" [JStr user; match getitem (JObj var_data) "user" with Ok u => u | Err _ => JNull end] ;;;
                          ret false)
                  else None).

(** [create_pr(title, from_branch, from_user, to_branch, body, maintainer_can_modify)] *)
Definition create_pr (h : gh_handler) (title : string) (from_branch from_user to_branch body : option string)
    (maintainer_can_modify : bool) : M net json :=
  let var_data := var_default h in
  let from_user := if negb (truthy from_user) then username h else from_user in
  let data := [("title", JStr title); ("body", JStr ""); ("maintainer_can_modify", JBool maintainer_can_modify)] in
  let data := match body with
              | Some b => if truthy body then setitem data "body" (JStr ("" ++ b)) else data
              | None => data end in
  let data := match from_branch with
              | Some fb =>
                  if truthy from_branch then
                    match from_user with
                    | Some fu =>
                        if truthy from_user && negb (bool_decide (from_user = username h))
                        then setitem data "head" (JStr (fu ++ ":" ++ fb))
                        else setitem data "head" (JStr fb)
                    | None => setitem data "head" (JStr fb)
                    end
                  else data
              | None => data end in
  let data := match to_branch with
              | Some tb => if truthy to_branch then setitem data "base" (JStr tb) else data
              | None => data end in
  log DEBUG "PR data %s" [JObj data] ;;;
  if dry_run h then
    log INFO "Would create PR '%s'" [JStr title] ;;;
    ret (JObj [("number", JInt (-1))])
  else
    log INFO "Creating PR '%s'" [JStr title] ;;;
    api_call h "POST" PULLS var_data (JObj data).

(** [modify_issue(number, labels, title, body)] *)
Definition modify_issue (h : gh_handler) (number : Z) (labels : option (list string))
    (title body : option string) : M net json :=
  let var_data := setitem (var_default h) "number" (JStr (PyStr.str_Z number)) in
  let has_labels := match labels with Some (_ :: _) => true | _ => false end in
  let data : list (string * json) := [] in
  let data := match labels with
              | Some ls => if has_labels then setitem data "labels" (JList (map JStr ls)) else data
              | None => data end in
  let data := match title with
              | Some t => if truthy title then setitem data "title" (JStr t) else data
              | None => data end in
  let data := match body with
              | Some b => if truthy body then setitem data "body" (JStr b) else data
              | None => data end in
  if dry_run h then
    log INFO "Would modify PR %s" [JInt number] ;;;
    (match title with Some t => if truthy title then log INFO "New title: %s" [JStr t] else ret tt
                     | None => ret tt end) ;;;
    (match labels with Some ls => if has_labels then log INFO "New labels: %s" [JList (map JStr ls)] else ret tt
                      | None => ret tt end) ;;;
    (match body with Some b => if truthy body then log INFO "New Body:\n%s\n" [JStr b] else ret tt
                    | None => ret tt end) ;;;
    ret (JObj [("number", JInt number)])
  else
    log INFO "Modifying PR %s" [JInt number] ;;;
    api_call h "PATCH" ISSUES var_data (JObj data).

(** [create_comment(number, body)]: returns [res['id']]. *)
Definition create_comment (h : gh_handler) (number : Z) (body : string) : M net json :=
  let var_data := setitem (var_default h) "number" (JStr (PyStr.str_Z number)) in
  let data := JObj [("body", JStr body)] in
  if dry_run h then
    log INFO "Would create comment on issue #%i" [JInt number] ;;;
    ret (JInt (-1))
  else
    log INFO "Creating comment on issue #%i" [JInt number] ;;;
    res <- api_call h "POST" COMMENTS var_data data ;;
    lift (getitem res "id").

End Api.

End GitHub.

(* ------------------------------------------------------------------ *)
(** ** time.strptime(s, "%Y-%m-%dT%H:%M:%S") and time.mktime *)

Module IsoTime.

(** A tiny backtracking matcher, enough for the regular expression that
    CPython's [_strptime] builds from the format: a sequence of literal
    characters and groups of alternatives tried in order. *)
Inductive item :=
  | Lit (f : ascii -> bool)
  | Grp (alts : list (list (ascii -> bool))).

Fixpoint match_chars (cs : list (ascii -> bool)) (s : list ascii) : option (list ascii * list ascii) :=
  match cs, s with
  | [], _ => Some ([], s)
  | f :: cs', c :: s' =>
      if f c then match match_chars cs' s' with
                  | Some (g, r) => Some (c :: g, r)
                  | None => None
                  end
      else None
  | _ :: _, [] => None
  end.

Fixpoint first_some {A} (l : list (option A)) : option A :=
  match l with
  | [] => None
  | Some a :: _ => Some a
  | None :: l' => first_some l'
  end.

(** [re.match]: the captured groups and the unconsumed input of the first
    match in backtracking order. *)
Fixpoint rmatch (items : list item) (s : list ascii) : option (list (list ascii) * list ascii) :=
  match items with
  | [] => Some ([], s)
  | Lit f :: its =>
      match s with
      | c :: s' => if f c then rmatch its s' else None
      | [] => None
      end
  | Grp alts :: its =>
      first_some (map (fun alt =>
        match match_chars alt s with
        | Some (g, s') =>
            match rmatch its s' with
            | Some (gs, r) => Some (g :: gs, r)
            | None => None
            end
        | None => None
        end) alts)
  end.

Definition in_range (lo hi : ascii) (c : ascii) : bool :=
  (nat_of_ascii lo <=? nat_of_ascii c)%nat && (nat_of_ascii c <=? nat_of_ascii hi)%nat.
Definition is_char (a : ascii) (c : ascii) : bool := Ascii.eqb a c.
Definition dgt := in_range "0" "9".

(** The pattern [_strptime] compiles (with [re.IGNORECASE]) for
    "%Y-%m-%dT%H:%M:%S":
    [(?P<Y>\d\d\d\d)-(?P<m>1[0-2]|0[1-9]|[1-9])-(?P<d>3[01]|[12]\d|0[1-9]|[1-9]| [1-9])T(?P<H>2[0-3]|[0-1]\d|\d):(?P<M>[0-5]\d|\d):(?P<S>6[0-1]|[0-5]\d|\d)].
    Strings are ASCII here, so [\d] is [0-9]. *)
Definition iso_pattern : list item := [
  Grp [[dgt; dgt; dgt; dgt]];
  Lit (is_char "-");
  Grp [[is_char "1"; in_range "0" "2"]; [is_char "0"; in_range "1" "9"]; [in_range "1" "9"]];
  Lit (is_char "-");
  Grp [[is_char "3"; in_range "0" "1"]; [in_range "1" "2"; dgt]; [is_char "0"; in_range "1" "9"];
       [in_range "1" "9"]; [is_char " "; in_range "1" "9"]];
  Lit (fun c => is_char "T" c || is_char "t" c);
  Grp [[is_char "2"; in_range "0" "3"]; [in_range "0" "1"; dgt]; [dgt]];
  Lit (is_char ":");
  Grp [[in_range "0" "5"; dgt]; [dgt]];
  Lit (is_char ":");
  Grp [[is_char "6"; in_range "0" "1"]; [in_range "0" "5"; dgt]; [dgt]]].

(** [int(g)] for a captured group (digits, possibly after one space). *)
Definition int_of_group (g : list ascii) : Z :=
  fold_left (fun acc c => if dgt c then (10 * acc + Z.of_nat (nat_of_ascii c - 48))%Z else acc) g 0%Z.

(** The fields of the [struct_time] that [strptime] returns. *)
Record tm := Tm { tm_year : Z; tm_mon : Z; tm_mday : Z; tm_hour : Z; tm_min : Z; tm_sec : Z }.

Definition is_leap (y : Z) : bool :=
  ((y mod 4 =? 0)%Z && negb (y mod 100 =? 0)%Z) || (y mod 400 =? 0)%Z.

Definition days_in_month (y m : Z) : Z :=
  if (m =? 2)%Z then (if is_leap y then 29 else 28)
  else if (m =? 4)%Z || (m =? 6)%Z || (m =? 9)%Z || (m =? 11)%Z then 30
  else 31.

(** [time.strptime(data, "%Y-%m-%dT%H:%M:%S")]: no match and unconverted
    data raise [ValueError]; so does an impossible date, when [_strptime]
    builds [datetime_date(year, month, day)] (year 0 or a day past the end
    of the month). *)
Definition strptime (data : string) : result tm :=
  match rmatch iso_pattern (list_ascii_of_string data) with
  | Some ([y; mo; d; hh; mi; ss], []) =>
      let year := int_of_group y in
      let month := int_of_group mo in
      let day := int_of_group d in
      if (year <? 1)%Z || (days_in_month year month <? day)%Z
      then Err (ValueError "day is out of range for month")
      else Ok (Tm year month day (int_of_group hh) (int_of_group mi) (int_of_group ss))
  | Some (_, _ :: _) => Err (ValueError "unconverted data remains")
  | _ => Err (ValueError "time data does not match format")
  end.

(** Days from 1970-01-01 to the given proleptic Gregorian date. *)
Local Open Scope Z_scope.
Definition days_from_civil (y m d : Z) : Z :=
  let y' := if (m <=? 2)%Z then y - 1 else y in
  let era := y' / 400 in
  let yoe := y' - era * 400 in
  let doy := (153 * (if (2 <? m)%Z then m - 3 else m + 9) + 2) / 5 + d - 1 in
  let doe := yoe * 365 + yoe / 4 - yoe / 100 + doy in
  era * 146097 + doe - 719468.

(** [time.mktime(t)]: [t] is read as LOCAL time.  The local zone is a
    fixed offset [utc_offset] seconds east of UTC (e.g. 3600 for
    TZ=Etc/GMT-1); seconds 60 and 61 are carried over as C mktime does. *)
Definition mktime (utc_offset : Z) (t : tm) : Z :=
  days_from_civil (tm_year t) (tm_mon t) (tm_mday t) * 86400
  + tm_hour t * 3600 + tm_min t * 60 + tm_sec t - utc_offset.

(** [GitHubAppHandler.parse_isotime(timestr)] in a process whose local
    zone is [utc_offset] seconds east of UTC. *)
Definition parse_isotime (utc_offset : Z) (timestr : string) : result Z :=
  match PyStr.last_char timestr with
  | Err e => Err e
  | Ok c =>
      if negb (Ascii.eqb c "Z") then Err (ValueError "Time String '%s' not in UTC")
      else match strptime (PyStr.drop_last timestr) with
           | Ok t => Ok (mktime utc_offset t)
           | Err e => Err e
           end
  end.

End IsoTime.

(* ------------------------------------------------------------------ *)
(** ** githubhandler.py: Event and GitHubAppHandler *)

Module App.
Import Http PyDict GitHub.

(** [Event.get(path)]: walk [path.split("/")]; a missing key or a value
    that cannot be indexed by a string becomes [KeyError]. *)
Definition event_get (data : json) (path : string) : result json :=
  fold_left (fun acc item =>
               match acc with
               | Ok d => match getitem d item with
                         | Ok v => Ok v
                         | Err _ => Err (KeyError ("No '" ++ path ++ "' in event"))
                         end
               | Err e => Err e
               end) (PyStr.split "/" path) (Ok data).

(** Hashable decoded values, as dict keys: [True == 1] as a key, and a
    list or dict is unhashable ([TypeError]). *)
Inductive key := KNone | KInt (z : Z) | KStr (s : string).

#[global] Instance key_eq_dec : EqDecision key.
Proof. solve_decision. Defined.

Definition key_enc (k : key) : option (Z + string) :=
  match k with KNone => None | KInt z => Some (inl z) | KStr s => Some (inr s) end.
Definition key_dec (o : option (Z + string)) : key :=
  match o with None => KNone | Some (inl z) => KInt z | Some (inr s) => KStr s end.

#[global] Instance key_countable : Countable key.
Proof. apply (inj_countable' key_enc key_dec). intros []; reflexivity. Defined.

Definition to_key (j : json) : result key :=
  match j with
  | JNull => Ok KNone
  | JBool b => Ok (KInt (Z.b2z b))
  | JInt z => Ok (KInt z)
  | JStr s => Ok (KStr s)
  | JList _ | JObj _ => Err TypeError
  end.

(** The mutable attributes of a [GitHubAppHandler]: [_jwt], [_tokens],
    [_handlers]; then the requests it sent and its log. *)
Record app_state := AppState {
  jwt : Z * string;
  tokens : gmap key (Z * json);
  handlers : gmap (key * key) gh_handler;
  app_requests : list request;
  app_log : list log_record }.

Definition set_jwt (j : Z * string) (st : app_state) : app_state :=
  AppState j (tokens st) (handlers st) (app_requests st) (app_log st).
Definition set_tokens (t : gmap key (Z * json)) (st : app_state) : app_state :=
  AppState (jwt st) t (handlers st) (app_requests st) (app_log st).
Definition set_handlers (hs : gmap (key * key) gh_handler) (st : app_state) : app_state :=
  AppState (jwt st) (tokens st) hs (app_requests st) (app_log st).

Definition log (lvl : level) (msg : string) (args : list json) : M app_state unit :=
  modify (fun st => AppState (jwt st) (tokens st) (handlers st) (app_requests st)
                             (LogRec lvl msg args :: app_log st)).

(** The state right after [__init__] (before its first [get_app_jwt]). *)
Definition initial_state : app_state := AppState (0%Z, "") ∅ ∅ [] [].

(** [JWT_RENEW_PERIOD] *)
Definition JWT_RENEW_PERIOD : Z := 600.

Definition INSTALLATION_TOKEN := "/app/installations/{installation_id}/access_tokens".

Section AppHandler.
(** The constructor arguments [app_name], [app_key] and [app_id]. *)
Variables app_name app_key app_id : string.
(** [jwt.encode({'iat': iat, 'exp': exp, 'iss': iss}, key, algorithm="RS256")],
    already decoded to text. *)
Variable jwt_encode : Z -> Z -> string -> string -> string.
(** The GitHub API's answer to a request. *)
Variable github : request -> response.
(** The local zone of the process, seconds east of UTC. *)
Variable utc_offset : Z.

(** A request made with a fresh [GitHubAPI(self._session, self.name)]. *)
Definition app_post (url : string) (vars : list (string * json)) (data : json) (a : auth) : M app_state json :=
  let rq := Request "POST" url vars data a in
  modify (fun st => AppState (jwt st) (tokens st) (handlers st) (rq :: app_requests st) (app_log st)) ;;;
  lift (decipher (github rq)).

(** [get_app_jwt()], with [int(time.time())] passed as [now]. *)
Definition get_app_jwt (now : Z) : M app_state string :=
  st <- get ;;
  let '(expires, token) := jwt st in
  if (expires =? 0)%Z || (expires <? now + 60)%Z then
    let expires := (now + JWT_RENEW_PERIOD)%Z in
    let token := jwt_encode now expires app_id app_key in
    modify (set_jwt (expires, token)) ;;;
    log INFO "%s JWT valid for %i minutes" [JStr "Created new"; JInt (Z.quot (expires - now) 60)] ;;;
    ret token
  else
    log INFO "%s JWT valid for %i minutes" [JStr "Reusing"; JInt (Z.quot (expires - now) 60)] ;;;
    ret token.

(** [get_installation_token(installation, name)], with [int(time.time())]
    passed as [now]; the nested [get_app_jwt] reads the same second. *)
Definition get_installation_token (installation : json) (name : option json) (now : Z) : M app_state json :=
  let name := match name with Some n => n | None => installation end in
  k <- lift (to_key installation) ;;
  st <- get ;;
  let '(expires, token) := match tokens st !! k with Some p => p | None => (0%Z, JStr "") end in
  if (expires =? 0)%Z || (expires <? now + 60)%Z then
    j <- get_app_jwt now ;;
    res <- catch (app_post INSTALLATION_TOKEN [("installation_id", installation)] (JStr "") (AppJWT j))
                 (fun e => if is_bad_request e then
                             Some (log ERROR "Failed to get installation token for %s" [name] ;;; raise e)
                           else None) ;;
    expires_at <- lift (getitem res "expires_at") ;;
    expires <- lift (match expires_at with
                     | JStr s => IsoTime.parse_isotime utc_offset s
                     | _ => Err TypeError
                     end) ;;
    token <- lift (getitem res "token") ;;
    st' <- get ;;
    modify (set_tokens (<[k := (expires, token)]> (tokens st'))) ;;;
    log INFO "%s token for %i valid for %i minutes" [JStr "Created new"; installation; JInt (Z.quot (expires - now) 60)] ;;;
    ret token
  else
    log INFO "%s token for %i valid for %i minutes" [JStr "Reusing"; installation; JInt (Z.quot (expires - now) 60)] ;;;
    ret token.

(** [get_github_api(event)], with the event's decoded payload as [data].
    A cached handler is updated in place, so the map keeps the same object
    the caller receives.  A [GitHubHandler] object is always truthy. *)
Definition get_github_api (data : json) (now : Z) : M app_state gh_handler :=
  installation <- lift (event_get data "installation/id") ;;
  user <- lift (event_get data "repository/owner/login") ;;
  repo <- lift (event_get data "repository/name") ;;
  ki <- lift (to_key installation) ;;
  kr <- lift (to_key repo) ;;
  let handler_key := (ki, kr) in
  st <- get ;;
  match handlers st !! handler_key with
  | Some api =>
      tok <- get_installation_token installation None now ;;
      api' <- lift (set_oauth_token api tok) ;;
      st' <- get ;;
      modify (set_handlers (<[handler_key := api']> (handlers st'))) ;;;
      ret api'
  | None =>
      tok <- get_installation_token installation None now ;;
      let api := new_handler tok false user repo in
      let api := create_api_object api app_name in
      st' <- get ;;
      modify (set_handlers (<[handler_key := api]> (handlers st'))) ;;;
      ret api
  end.

End AppHandler.

End App.

(* ------------------------------------------------------------------ *)
(** ** Notions the properties are stated with *)

Module SpecDefs.

(** The path components of a normalised absolute path. *)
Definition components (p : string) : list string :=
  List.filter (fun c => negb (c =? "")) (PyStr.split "/" p).

Fixpoint list_prefix (xs ys : list string) : bool :=
  match xs, ys with
  | [], _ => true
  | x :: xs', y :: ys' => (x =? y) && list_prefix xs' ys'
  | _ :: _, [] => false
  end.

(** [file_name] resolves, after [abspath], to the repository root or to a
    path below it. *)
Definition resolves_inside (cwd working_dir file_name : string) : bool :=
  list_prefix (components (PosixPath.abspath cwd working_dir))
              (components (PosixPath.abspath cwd file_name)).

(** A log entry is decorated with the branch: git prints the branch name
    as one of its decorations (possibly as "HEAD -> name"). *)
Definition decorated_with (name : string) (e : GitHandler.log_entry) : bool :=
  existsb (fun d => (d =? name) || (d =? "HEAD -> " ++ name)) (GitHandler.le_decorations e).

(** Every handler cached by a [GitHubAppHandler] is live: not in dry-run
    mode and with its API object created. *)
Definition handlers_live (st : App.app_state) : Prop :=
  forall k h, App.handlers st !! k = Some h -> GitHub.dry_run h = false /\ is_Some (GitHub.api h).

(** Seconds since the epoch of a UTC calendar time ([calendar.timegm]). *)
Definition utc_seconds (y m d hh mi ss : Z) : Z :=
  (IsoTime.days_from_civil y m d * 86400 + hh * 3600 + mi * 60 + ss)%Z.

End SpecDefs.

(* ------------------------------------------------------------------ *)
(** ** githandler.py: the rest of GitHandlerBase, and TempGitHandler *)

Module GitMore.
Import PyStr GitHandler PyDict.



(** The repository configuration: (section, option) to value. *)
Abbreviation config := (gmap (string * string) string) (only parsing).

(** [set_user(user, email, key)] through [repo.config_writer()]. *)
Definition set_user (user : string) (email key : option string) (c : config) : config :=
  let c := <[("user", "name") := user]> c in
  let email := if truthy email then match email with Some e => e | None => "" end
               else user ++ "@users.noreply.github.com" in
  let c := <[("user", "email") := email]> c in
  match key with
  | Some k => <[("user", "signingkey") := k]> c
  | None => c
  end.

(** What [getattr(l, name)] finds on a GitPython [IterableList] [l]: an
    item, or an attribute that ordinary attribute lookup finds first. *)
Inductive found := Item (name commit : string) | ListAttr (name : string).

(** The local heads and remote-tracking refs (full short name, e.g.
    "origin/master", to commit id), the loose head refs (those with a file
    under .git/refs/heads), the checked out branch and the log. *)
Record branch_state := BranchState {
  bs_heads : gmap string string;
  bs_loose : gset string;
  bs_remote_refs : gmap string string;
  bs_active : string;
  bs_log : list log_record }.

Definition blog (lvl : level) (msg : string) (args : list json) : M branch_state unit :=
  modify (fun st => BranchState (bs_heads st) (bs_loose st) (bs_remote_refs st) (bs_active st)
                                (LogRec lvl msg args :: bs_log st)).

Definition set_head (name commit : string) (st : branch_state) : branch_state :=
  BranchState (<[name := commit]> (bs_heads st)) ({[name]} ∪ bs_loose st) (bs_remote_refs st)
              (bs_active st) (bs_log st).

Definition set_remote_ref (name commit : string) (st : branch_state) : branch_state :=
  BranchState (bs_heads st) (bs_loose st) (<[name := commit]> (bs_remote_refs st)) (bs_active st)
              (bs_log st).

Definition set_active (name : string) (st : branch_state) : branch_state :=
  BranchState (bs_heads st) (bs_loose st) (bs_remote_refs st) name (bs_log st).

(** [Remote.refs]: the remote-tracking refs under "<remote>/". *)
Definition remote_refs (r : remote) (st : branch_state) : gmap string string :=
  filter (fun kv => String.prefix (r_name r ++ "/") kv.1 = true) (bs_remote_refs st).

Section Branches.
(** Names that ordinary attribute lookup resolves on an [IterableList]
    before its [__getattr__] runs: the attributes of Python's [list]
    ("append", "sort", "index", ...) and of [IterableList] itself. *)
Variable list_attr : string -> bool.
(** The commits [Remote(name).fetch('master')] reports, in order. *)
Variable fetch_master : string -> list string.

(** [getattr(l, name)] on an [IterableList] with prefix [prefix] whose
    items are found by full name with [lookup]. *)
Definition il_getattr (lookup : string -> option string) (prefix name : string) : option found :=
  if list_attr name then Some (ListAttr name) else
  match lookup (prefix ++ name) with
  | Some c => Some (Item (prefix ++ name) c)
  | None => None
  end.

(** [name in l]: no item compares equal to a string, so this is whether
    [getattr] succeeds. *)
Definition il_contains (lookup : string -> option string) (prefix name : string) : bool :=
  match il_getattr lookup prefix name with Some _ => true | None => false end.

(** [l[name]] for a string: [IndexError] when [getattr] fails. *)
Definition il_getitem (lookup : string -> option string) (prefix name : string) : result found :=
  match il_getattr lookup prefix name with Some f => Ok f | None => Err IndexError end.

(** [get_local_branch(branch_name)] ([repo.branches] is [repo.heads]). *)
Definition get_local_branch (branch_name : string) : M branch_state (option found) :=
  st <- get ;;
  if il_contains (bs_heads st !!.) "" branch_name then
    b <- lift (il_getitem (bs_heads st !!.) "" branch_name) ;;
    ret (Some b)
  else ret None.

(** [get_remote_branch(branch_name)] *)
Definition get_remote_branch (h : handler) (branch_name : string) : M branch_state (option found) :=
  st <- get ;;
  let refs := remote_refs (fork_remote h) st in
  let prefix := r_name (fork_remote h) ++ "/" in
  if il_contains (refs !!.) prefix branch_name then
    b <- lift (il_getitem (refs !!.) prefix branch_name) ;;
    ret (Some b)
  else
    blog ERROR "Branch %s not found!" [JStr branch_name] ;;;
    blog INFO "  Have branches: %s" [JList (map (fun kv => JStr kv.1) (map_to_list refs))] ;;;
    ret None.

(** [x.commit]: [AttributeError] on [None] and on a list attribute. *)
Definition commit_of (b : option found) : result string :=
  match b with Some (Item _ c) => Ok c | _ => Err AttributeError end.

(** [repo.create_head(name, commit)], i.e. [Head.create] without [force]:
    a loose ref file of that name pointing elsewhere raises [OSError];
    otherwise the head is written (as a loose ref) to [commit]. *)
Definition create_head (name commit : string) : M branch_state unit :=
  st <- get ;;
  match bs_heads st !! name with
  | Some c =>
      if bool_decide (name ∈ bs_loose st) && negb (c =? commit)
      then raise (OSError (".git/refs/heads/" ++ name))
      else modify (set_head name commit)
  | None => modify (set_head name commit)
  end.

(** [create_local_branch(branch_name)] *)
Definition create_local_branch (h : handler) (branch_name : string) : M branch_state (option found) :=
  remote_branch <- get_remote_branch h branch_name ;;
  c <- lift (commit_of remote_branch) ;;
  create_head branch_name c ;;;
  get_local_branch branch_name.

(** [prepare_branch(branch_name)]: [home_remote.fetch('master')] also
    moves the remote-tracking ref "<home>/master"; [branch.checkout()] is
    a checkout that git performs (a clean working tree). *)
Definition prepare_branch (h : handler) (branch_name : string) : M branch_state unit :=
  st <- get ;;
  (if negb (il_contains (bs_heads st !!.) "" branch_name) then
     blog INFO "Creating new branch %s" [JStr branch_name] ;;;
     match fetch_master (r_name (home_remote h)) with
     | [] => raise IndexError
     | from_commit :: _ =>
         modify (set_remote_ref (r_name (home_remote h) ++ "/master") from_commit) ;;;
         create_head branch_name from_commit
     end
   else ret tt) ;;;
  blog INFO "Checking out branch %s" [JStr branch_name] ;;;
  st' <- get ;;
  branch <- lift (il_getitem (bs_heads st' !!.) "" branch_name) ;;
  match branch with
  | Item _ _ => modify (set_active branch_name)
  | ListAttr _ => raise AttributeError
  end.

End Branches.









Section Temp.
(** [tempfile.TemporaryDirectory().name] *)
Variable tempdir : string.
(** The names ordinary attribute lookup finds on an [IterableList]. *)
Variable list_attr : string -> bool.


End Temp.

End GitMore.

(* ------------------------------------------------------------------ *)
(** ** githubhandler.py: the rest of GitHubHandler and GitHubAppHandler *)

Module GitHubMore.
Import Http PyDict GitHub.

(** [IssueState = Enum("IssueState", "open closed all")] *)
Inductive issue_state := IssueOpen | IssueClosed | IssueAll.

(** [state.name.lower()] *)
Definition issue_state_name (s : issue_state) : string :=
  match s with IssueOpen => "open" | IssueClosed => "closed" | IssueAll => "all" end.

Section Api.
Variable github : request -> response.

(** [get_prs(from_branch, from_user, to_branch, number, state)] *)
Definition get_prs (h : gh_handler) (from_branch from_user to_branch : option string)
    (number : option Z) (state : option issue_state) : M net json :=
  let var_data := var_default h in
  let from_user := if negb (truthy from_user) then username h else from_user in
  let var_data := match from_branch with
                  | Some fb =>
                      if truthy from_branch then
                        match from_user with
                        | Some fu => if truthy from_user then setitem var_data "head" (JStr (fu ++ ":" ++ fb))
                                     else setitem var_data "head" (JStr fb)
                        | None => setitem var_data "head" (JStr fb)
                        end
                      else var_data
                  | None => var_data end in
  let var_data := match to_branch with
                  | Some tb => if truthy to_branch then setitem var_data "base" (JStr tb) else var_data
                  | None => var_data end in
  let var_data := match number with
                  | Some n => if negb (n =? 0)%Z then setitem var_data "number" (JStr (PyStr.str_Z n)) else var_data
                  | None => var_data end in
  let var_data := match state with
                  | Some s => setitem var_data "state" (JStr (issue_state_name s))
                  | None => var_data end in
  api_call github h "GET" PULLS var_data JNull.

(** [get_pr_modified_files(number)] *)
Definition get_pr_modified_files (h : gh_handler) (number : Z) : M net json :=
  let var_data := setitem (var_default h) "number" (JStr (PyStr.str_Z number)) in
  api_call github h "GET" PULL_FILES var_data JNull.

End Api.

End GitHubMore.

Module AppMore.
Import App.

(** [GitHubAppHandler.__init__(session, app_name, app_key, app_id)]: empty
    caches, then one [get_app_jwt()] at the current second [now]. *)
Definition new_app_handler (app_key app_id : string) (jwt_encode : Z -> Z -> string -> string -> string)
    (now : Z) : result unit * app_state :=
  (get_app_jwt app_key app_id jwt_encode now ;;; ret tt) initial_state.

End AppMore.

(* ================================================================== *)
(** * Properties *)

Ltac unfold_monad := unfold bind, get, put, modify, ret, raise, lift, catch in *.

(* ------------------------------------------------------------------ *)
(** ** Lists: the first element satisfying a test *)

Section FirstMatch.
Context {A : Type}.

Lemma find_first (f : A -> bool) (pre post : list A) (x : A) :
  f x = true -> Forall (fun y => f y = false) pre -> find f (pre ++ x :: post) = Some x.
Proof.
  intros Hx Hpre. induction Hpre as [|y pre Hy _ IH]; simpl.
  - now rewrite Hx.
  - now rewrite Hy.
Qed.

Lemma find_none (f : A -> bool) (l : list A) :
  Forall (fun y => f y = false) l -> find f l = None.
Proof. induction 1 as [|y l Hy _ IH]; simpl; [done|now rewrite Hy]. Qed.

Lemma find_none_inv (f : A -> bool) (l : list A) :
  find f l = None -> Forall (fun y => f y = false) l.
Proof.
  induction l as [|y l IH]; simpl; [constructor|].
  destruct (f y) eqn:E; [discriminate|]. intros H. constructor; auto.
Qed.

Lemma filter_first (f : A -> bool) (pre post : list A) (x : A) :
  f x = true -> Forall (fun y => f y = false) pre ->
  List.filter f (pre ++ x :: post) = x :: List.filter f post.
Proof.
  intros Hx Hpre. induction Hpre as [|y pre Hy _ IH]; simpl.
  - now rewrite Hx.
  - now rewrite Hy.
Qed.

Lemma filter_nil_iff (f : A -> bool) (l : list A) :
  List.filter f l = [] <-> Forall (fun y => f y = false) l.
Proof.
  induction l as [|y l IH]; simpl; [split; auto|].
  destruct (f y) eqn:E; split; intros H.
  - discriminate.
  - inversion H; congruence.
  - constructor; [exact E | now apply IH].
  - inversion H; subst. now apply IH.
Qed.

Lemma find_some_split (f : A -> bool) (l : list A) (x : A) :
  find f l = Some x ->
  exists pre post, l = (pre ++ x :: post)%list /\ f x = true /\ Forall (fun y => f y = false) pre.
Proof.
  induction l as [|y l IH]; simpl; [discriminate|].
  destruct (f y) eqn:E.
  - intros [= ->]. exists [], l. auto.
  - intros H. destruct (IH H) as (pre & post & -> & Hx & Hpre).
    exists (y :: pre), post. repeat split; auto.
Qed.

End FirstMatch.

Lemma existsb_map_find {A} (g : A -> string) (s : string) (l : list A) :
  existsb (fun n => n =? s) (map g l) = match find (fun r => g r =? s) l with Some _ => true | None => false end.
Proof. induction l as [|y l IH]; simpl; [done|]. now destruct (g y =? s). Qed.

(* ------------------------------------------------------------------ *)
(** ** GitHandlerBase.get_remote *)

Section GetRemote.
Import GitHandler.
(** The names ordinary attribute lookup finds on an [IterableList]. *)
Variable list_attr : string -> bool.

Lemma eqb_false_iff (a b : string) : (a =? b) = false <-> a <> b.
Proof. apply String.eqb_neq. Qed.

Lemma urls_match_false (s : string) (q : remote) :
  existsb (fun x => PyStr.contains s x) (r_urls q) = false <->
  (forall u, In u (r_urls q) -> PyStr.contains s u = false).
Proof.
  split.
  - intros H u Hu. destruct (PyStr.contains s u) eqn:E; [|done].
    assert (existsb (fun x => PyStr.contains s x) (r_urls q) = true) as H'
      by (apply existsb_exists; eauto). congruence.
  - intros H. destruct (existsb _ _) eqn:E; [|done].
    apply existsb_exists in E as (u & Hu & Hc). rewrite H in Hc; auto.
Qed.

(** How [get_remote] resolves a name that is not an attribute of the
    list: an exact name wins; otherwise the first remote, in list order,
    with [s] in one of its URLs; [KeyError] exactly when neither exists. *)
Lemma get_remote_resolution (remotes : list remote) (s : string) :
  (list_attr s = false ->
   forall pre r post, remotes = (pre ++ r :: post)%list -> r_name r = s ->
     Forall (fun q => r_name q <> s) pre -> get_remote list_attr remotes s = Ok (RemoteObj r)) /\
  (Forall (fun q => r_name q <> s) remotes ->
     forall pre r post, remotes = (pre ++ r :: post)%list ->
       (exists u, In u (r_urls r) /\ PyStr.contains s u = true) ->
       Forall (fun q => forall u, In u (r_urls q) -> PyStr.contains s u = false) pre ->
       get_remote list_attr remotes s = Ok (RemoteObj r)) /\
  (forall e, get_remote list_attr remotes s = Err e <->
     e = KeyError ("No remote matching '" ++ s ++ "' found") /\
     Forall (fun q => r_name q <> s /\ forall u, In u (r_urls q) -> PyStr.contains s u = false) remotes).
Proof.
  split; [|split].
  - intros Hla pre r post -> Hr Hpre. unfold get_remote.
    rewrite existsb_map_find, Hla.
    rewrite (find_first _ pre post r); [done| |].
    + now apply String.eqb_eq.
    + eapply Forall_impl; [exact Hpre|]. intros; now apply eqb_false_iff.
  - intros Hall pre r post -> Hu Hpre. unfold get_remote.
    rewrite existsb_map_find, find_none.
    2: { eapply Forall_impl; [exact Hall|]. intros; now apply eqb_false_iff. }
    rewrite (filter_first _ pre post r); [done| |].
    + apply existsb_exists. destruct Hu as (u & ? & ?). eauto.
    + eapply Forall_impl; [exact Hpre|]. intros q Hq. now apply urls_match_false.
  - intros e. unfold get_remote. rewrite existsb_map_find.
    destruct (find (fun r => r_name r =? s) remotes) as [r|] eqn:Hf.
    + split; [destruct (list_attr s); discriminate|]. intros [_ Hall].
      apply find_some_split in Hf as (pre & post & -> & Hr & _).
      apply Forall_app in Hall as [_ Hall]. inversion Hall as [|? ? [Hn _] _]; subst.
      apply String.eqb_eq in Hr. contradiction.
    + apply find_none_inv in Hf.
      destruct (List.filter _ remotes) as [|r rs] eqn:Hfl.
      * apply filter_nil_iff in Hfl. split.
        -- intros [= <-]. split; [done|].
           apply List.Forall_forall. intros q Hq. split.
           ++ apply eqb_false_iff. exact (proj1 (List.Forall_forall _ _) Hf q Hq).
           ++ apply urls_match_false. exact (proj1 (List.Forall_forall _ _) Hfl q Hq).
        -- intros [-> _]. done.
      * split; [discriminate|]. intros [_ Hall].
        assert (In r (List.filter (fun r => existsb (fun x => PyStr.contains s x) (r_urls r)) remotes)) as Hin
          by (rewrite Hfl; left; done).
        apply filter_In in Hin as [Hin Hm].
        apply (proj1 (List.Forall_forall _ _) Hall) in Hin as [_ Hu].
        apply urls_match_false in Hu. congruence.
Qed.

(** C5 (code bug): a remote whose name is also an attribute of the
    [IterableList] (e.g. "count") is found by name, yet
    [self.repo.remotes[desc]] returns the list's attribute, not the remote:
    no remote of that name, nor any other remote, is returned. *)
Theorem get_remote_list_attribute_name (remotes : list remote) (s : string) (r : remote) :
  list_attr s = true -> In r remotes -> r_name r = s ->
  get_remote list_attr remotes s = Ok (ListAttribute s) /\
  (forall q, get_remote list_attr remotes s <> Ok (RemoteObj q)).
Proof.
  intros Hla Hin Hr.
  assert (Hex : existsb (fun n => n =? s) (map r_name remotes) = true).
  { apply existsb_exists. exists (r_name r). split; [now apply in_map|]. rewrite Hr. apply String.eqb_refl. }
  unfold get_remote. rewrite Hex, Hla. split; [reflexivity|]. intros q [=].
Qed.

End GetRemote.

(* ------------------------------------------------------------------ *)
(** ** GitHubAppHandler: the JWT and installation-token caches *)

Section AppCaches.
Import App.
Variables (app_name app_key app_id : string) (jwt_encode : Z -> Z -> string -> string -> string)
          (github : Http.request -> Http.response) (utc_offset : Z).

(** C3: a cached JWT whose expiry [e] is set and at least [now + 60] is
    returned unchanged; otherwise a new one is minted for [now + 600],
    stored and returned.  Hence at [now = e - 61] it is reused and at
    [now = e - 59] it is regenerated. *)
Theorem get_app_jwt_renewal (now : Z) (st : app_state) :
  let e := fst (jwt st) in
  let tok := snd (jwt st) in
  let fresh (t : Z) := jwt_encode t (t + JWT_RENEW_PERIOD)%Z app_id app_key in
  ((e <> 0 /\ now + 60 <= e)%Z ->
     fst (get_app_jwt app_key app_id jwt_encode now st) = Ok tok /\
     jwt (snd (get_app_jwt app_key app_id jwt_encode now st)) = jwt st) /\
  ((e = 0 \/ e < now + 60)%Z ->
     fst (get_app_jwt app_key app_id jwt_encode now st) = Ok (fresh now) /\
     jwt (snd (get_app_jwt app_key app_id jwt_encode now st)) = ((now + 600)%Z, fresh now)) /\
  (e <> 0%Z ->
     fst (get_app_jwt app_key app_id jwt_encode (e - 61) st) = Ok tok /\
     jwt (snd (get_app_jwt app_key app_id jwt_encode (e - 61) st)) = jwt st) /\
  (e <> 0%Z ->
     fst (get_app_jwt app_key app_id jwt_encode (e - 59) st) = Ok (fresh (e - 59)%Z) /\
     (e - 59 + 600 <= fst (jwt (snd (get_app_jwt app_key app_id jwt_encode (e - 59) st))))%Z).
Proof.
  destruct st as [[e tok] tks hs rqs lg]. cbn zeta. simpl fst; simpl snd.
  unfold get_app_jwt, log, JWT_RENEW_PERIOD. unfold_monad. simpl.
  split; [|split; [|split]]; intros H; split.
  all: repeat match goal with
       | |- context [ (?a =? ?b)%Z ] => destruct (Z.eqb_spec a b)
       | |- context [ (?a <? ?b)%Z ] => destruct (Z.ltb_spec a b)
       end; simpl; try (exfalso; lia); try reflexivity; try lia.
  all: destruct H; lia.
Qed.

Lemma get_app_jwt_frame (now : Z) (st : app_state) :
  exists j, get_app_jwt app_key app_id jwt_encode now st =
    (Ok j, AppState (jwt (snd (get_app_jwt app_key app_id jwt_encode now st))) (tokens st) (handlers st)
                    (app_requests st) (app_log (snd (get_app_jwt app_key app_id jwt_encode now st)))).
Proof.
  destruct st as [[e tok] tks hs rqs lg]. unfold get_app_jwt, log. unfold_monad. simpl.
  destruct (_ || _); simpl; eauto.
Qed.

(** C4: on a cache miss (no entry, or an expiry before [now + 60]) the
    call sends exactly one request to the token endpoint, and when the
    answer parses it stores (parsed expires_at, token) for that
    installation and returns the token; on a hit (expiry at least
    [now + 60]) it returns the cached token and sends nothing. *)
Theorem get_installation_token_cache (installation : json) (k : key) (now : Z) (st : app_state) :
  to_key installation = Ok k -> (0 <= now)%Z ->
  (match tokens st !! k with None => True | Some (e, _) => (e < now + 60)%Z end ->
     forall j stj, get_app_jwt app_key app_id jwt_encode now st = (Ok j, stj) ->
     let rq := Http.Request "POST" INSTALLATION_TOKEN [("installation_id", installation)]
                            (JStr "") (Http.AppJWT j) in
     let r := get_installation_token app_key app_id jwt_encode github utc_offset installation None now st in
     app_requests (snd r) = rq :: app_requests st /\
     (forall res ts e tok,
        Http.decipher (github rq) = Ok res ->
        PyDict.getitem res "expires_at" = Ok (JStr ts) ->
        IsoTime.parse_isotime utc_offset ts = Ok e ->
        PyDict.getitem res "token" = Ok tok ->
        fst r = Ok tok /\ tokens (snd r) = <[k := (e, tok)]> (tokens st))) /\
  (forall e tok, tokens st !! k = Some (e, tok) -> (now + 60 <= e)%Z ->
     let r := get_installation_token app_key app_id jwt_encode github utc_offset installation None now st in
     fst r = Ok tok /\ app_requests (snd r) = app_requests st /\ tokens (snd r) = tokens st).
Proof.
  intros Hk Hnow. split.
  - intros Hmiss j stj Hj rq r.
    destruct (get_app_jwt_frame now st) as [j' Hj'].
    rewrite Hj in Hj'. injection Hj' as Hjj Hstj. subst j'.
    assert (Hr : app_requests stj = app_requests st) by (rewrite Hstj; reflexivity).
    assert (Ht : tokens stj = tokens st) by (rewrite Hstj; reflexivity).
    subst r. unfold get_installation_token. unfold_monad. rewrite Hk.
    cbn -[get_app_jwt].
    destruct (tokens st !! k) as [[e0 t0]|] eqn:Hlk; cbn -[get_app_jwt].
    + assert (Hc : ((e0 =? 0)%Z || (e0 <? now + 60)%Z) = true).
      { apply orb_true_iff; right. apply Z.ltb_lt. exact Hmiss. }
      rewrite Hc. rewrite Hj. cbn. fold rq. split.
      * destruct (Http.decipher (github rq)) as [res|ex]; cbn;
          [|destruct (Http.is_bad_request ex); cbn; rewrite ?Hr; done].
        destruct (PyDict.getitem res "expires_at") as [[]|]; cbn; rewrite ?Hr; try done.
        destruct (IsoTime.parse_isotime utc_offset s); cbn; rewrite ?Hr; try done.
        destruct (PyDict.getitem res "token"); cbn; rewrite ?Hr; done.
      * intros res ts e tok Hres Hexp Hparse Htok.
        rewrite Hres; cbn. rewrite Hexp; cbn. rewrite Hparse; cbn. rewrite Htok; cbn.
        rewrite ?Ht; done.
    + rewrite Hj. cbn. fold rq. split.
      * destruct (Http.decipher (github rq)) as [res|ex]; cbn;
          [|destruct (Http.is_bad_request ex); cbn; rewrite ?Hr; done].
        destruct (PyDict.getitem res "expires_at") as [[]|]; cbn; rewrite ?Hr; try done.
        destruct (IsoTime.parse_isotime utc_offset s); cbn; rewrite ?Hr; try done.
        destruct (PyDict.getitem res "token"); cbn; rewrite ?Hr; done.
      * intros res ts e tok Hres Hexp Hparse Htok.
        rewrite Hres; cbn. rewrite Hexp; cbn. rewrite Hparse; cbn. rewrite Htok; cbn.
        rewrite ?Ht; done.
  - intros e tok Hlk He r. subst r.
    unfold get_installation_token. unfold_monad. rewrite Hk. cbn -[get_app_jwt].
    rewrite Hlk. cbn -[get_app_jwt].
    assert (Hc : ((e =? 0)%Z || (e <? now + 60)%Z) = false).
    { apply orb_false_iff. split; [apply Z.eqb_neq; lia | apply Z.ltb_ge; lia]. }
    rewrite Hc. cbn. done.
Qed.

End AppCaches.

(* ------------------------------------------------------------------ *)
(** ** Dry-run mode *)

Section DryRun.
Import GitHub.
Variable github : Http.request -> Http.response.
Variable push_result : string -> string -> list GitHandler.push_info.

(** C7: in dry-run mode [create_pr] returns [{'number': -1}] and
    [create_comment] returns [-1] without any request, and
    [delete_remote_branch] pushes nothing; each logs what it would do. *)
Theorem dry_run_no_remote_effects (h : gh_handler) (g : GitHandler.handler) :
  dry_run h = true -> GitHandler.dry_run g = true ->
  (forall title fb fu tb body mcm n,
     let r := create_pr github h title fb fu tb body mcm n in
     fst r = Ok (JObj [("number", JInt (-1))]) /\ requests (snd r) = requests n /\
     hd_error (net_log (snd r)) = Some (LogRec INFO "Would create PR '%s'" [JStr title])) /\
  (forall number body n,
     let r := create_comment github h number body n in
     fst r = Ok (JInt (-1)) /\ requests (snd r) = requests n /\
     hd_error (net_log (snd r)) = Some (LogRec INFO "Would create comment on issue #%i" [JInt number])) /\
  (forall branch_name st,
     let r := GitHandler.delete_remote_branch push_result g branch_name st in
     fst r = Ok tt /\ GitHandler.rs_pushes (snd r) = GitHandler.rs_pushes st /\
     GitHandler.rs_log (snd r) = LogRec INFO "Would delete branch %s" [JStr branch_name] :: GitHandler.rs_log st).
Proof.
  intros Hh Hg. split; [|split].
  - intros. subst r. unfold create_pr, log. unfold_monad. rewrite Hh. cbn. done.
  - intros. subst r. unfold create_comment, log. unfold_monad. rewrite Hh. cbn. done.
  - intros. subst r. unfold GitHandler.delete_remote_branch, GitHandler.log. unfold_monad.
    rewrite Hg. cbn. done.
Qed.

End DryRun.

(* ------------------------------------------------------------------ *)
(** ** GitHubAppHandler.get_github_api *)

Section Sessions.
Import App GitHub SpecDefs.
Variables (app_name app_key app_id : string) (jwt_encode : Z -> Z -> string -> string -> string)
          (github : Http.request -> Http.response) (utc_offset : Z).

Lemma get_installation_token_handlers (installation : json) (name : option json) (now : Z) (st : app_state) :
  handlers (snd (get_installation_token app_key app_id jwt_encode github utc_offset installation name now st))
  = handlers st.
Proof.
  unfold get_installation_token, get_app_jwt, app_post, log, set_tokens, set_jwt. unfold_monad.
  destruct (to_key installation); cbn; [|done].
  destruct st as [[e t] tks hs rqs lg]; cbn.
  repeat (case_match; simplify_eq/=); done.
Qed.

Lemma handlers_live_initial : handlers_live initial_state.
Proof. intros k h. cbn. rewrite lookup_empty. discriminate. Qed.

Lemma live_handler_sends (h : gh_handler) (n : net) :
  dry_run h = false -> is_Some (api h) ->
  (forall title fb fu tb body mcm,
     exists rq, requests (snd (create_pr github h title fb fu tb body mcm n)) = rq :: requests n) /\
  (forall number labels title body,
     exists rq, requests (snd (modify_issue github h number labels title body n)) = rq :: requests n) /\
  (forall number body,
     exists rq, requests (snd (create_comment github h number body n)) = rq :: requests n).
Proof.
  intros Hd [a Ha]. split; [|split]; intros.
  - unfold create_pr, api_call, log. unfold_monad. rewrite Hd, Ha. cbn. eauto.
  - unfold modify_issue, api_call, log. unfold_monad. rewrite Hd, Ha. cbn. eauto.
  - unfold create_comment, api_call, log. unfold_monad. rewrite Hd, Ha. cbn.
    destruct (Http.decipher _); cbn; eauto.
Qed.
Lemma handlers_live_transfer (st st' : app_state) :
  handlers st' = handlers st -> handlers_live st -> handlers_live st'.
Proof. intros Heq H k h. rewrite Heq. apply H. Qed.

Lemma handlers_live_insert (st : app_state) (k : key * key) (h : gh_handler) :
  handlers_live st -> dry_run h = false -> is_Some (api h) ->
  handlers_live (set_handlers (<[k := h]> (handlers st)) st).
Proof.
  intros H Hd Ha k' h'. cbn. destruct (decide (k = k')) as [<-|Hne].
  - rewrite lookup_insert_eq. intros [= <-]. auto.
  - rewrite lookup_insert_ne by done. apply H.
Qed.

(** C10: [get_github_api] keeps every cached handler out of dry-run mode
    (from the empty cache of [__init__] on, see [handlers_live_initial]);
    the handler it returns is not in dry-run mode, so [create_pr],
    [modify_issue] and [create_comment] through it each send a request. *)
Theorem get_github_api_sessions_live (data : json) (now : Z) (st : app_state) :
  handlers_live st ->
  let r := get_github_api app_name app_key app_id jwt_encode github utc_offset data now st in
  handlers_live (snd r) /\
  (forall h, fst r = Ok h ->
     dry_run h = false /\
     (forall title fb fu tb body mcm n,
        exists rq, requests (snd (create_pr github h title fb fu tb body mcm n)) = rq :: requests n) /\
     (forall number labels title body n,
        exists rq, requests (snd (modify_issue github h number labels title body n)) = rq :: requests n) /\
     (forall number body n,
        exists rq, requests (snd (create_comment github h number body n)) = rq :: requests n)).
Proof.
  intros Hlive r. subst r.
  cut (handlers_live (snd (get_github_api app_name app_key app_id jwt_encode github utc_offset data now st)) /\
       (forall h, fst (get_github_api app_name app_key app_id jwt_encode github utc_offset data now st) = Ok h ->
                  dry_run h = false /\ is_Some (api h))).
  { intros [H1 H2]. split; [exact H1|]. intros h Hh. destruct (H2 h Hh) as [Hd Ha].
    split; [exact Hd|].
    split; [|split]; intros; edestruct (live_handler_sends h n Hd Ha) as (A1 & A2 & A3); eauto. }
  unfold get_github_api. unfold_monad. cbn -[get_installation_token event_get to_key set_oauth_token].
  destruct (event_get data "installation/id") as [inst|]; cbn -[get_installation_token event_get to_key set_oauth_token]; [|split; [done|discriminate]].
  destruct (event_get data "repository/owner/login") as [user|]; cbn -[get_installation_token event_get to_key set_oauth_token]; [|split; [done|discriminate]].
  destruct (event_get data "repository/name") as [repo|]; cbn -[get_installation_token event_get to_key set_oauth_token]; [|split; [done|discriminate]].
  destruct (to_key inst) as [ki|]; cbn -[get_installation_token event_get to_key set_oauth_token]; [|split; [done|discriminate]].
  destruct (to_key repo) as [kr|]; cbn -[get_installation_token event_get to_key set_oauth_token]; [|split; [done|discriminate]].
  pose proof (get_installation_token_handlers inst None now st) as Hh1.
  destruct (get_installation_token app_key app_id jwt_encode github utc_offset inst None now st)
    as [[tok|ex] st1] eqn:Ht; cbn in Hh1.
  - destruct (handlers st !! (ki, kr)) as [api0|] eqn:Hl; cbn -[get_installation_token event_get to_key set_oauth_token].
    + rewrite Ht. cbn.
      destruct (set_oauth_token api0 tok) as [api'|ex] eqn:Hs; cbn.
      * destruct (Hlive _ _ Hl) as [Hd0 Ha0].
        assert (dry_run api' = false /\ is_Some (api api')) as [Hd' Ha'].
        { unfold set_oauth_token in Hs. destruct (api api0); [|discriminate].
          injection Hs as <-. cbn. split; [exact Hd0|eauto]. }
        split.
        -- apply handlers_live_insert; auto. eapply handlers_live_transfer; eauto.
        -- intros h [= <-]. auto.
      * split; [eapply handlers_live_transfer; eauto | discriminate].
    + rewrite Ht. cbn. split.
      * apply handlers_live_insert; cbn; eauto. eapply handlers_live_transfer; eauto.
      * intros h [= <-]. cbn. eauto.
  - destruct (handlers st !! (ki, kr)) as [api0|]; cbn -[get_installation_token event_get to_key set_oauth_token]; rewrite Ht; cbn;
      (split; [eapply handlers_live_transfer; eauto | discriminate]).
Qed.
End Sessions.

(* ------------------------------------------------------------------ *)
(** ** GitHandlerBase.commit_and_push_changes *)

Section CommitPush.
Import GitHandler.
Variable push_result : string -> string -> list push_info.






End CommitPush.

(* ------------------------------------------------------------------ *)
(** ** GitHandlerBase.read_from_branch *)

Section ReadFromBranch.
Import GitHandler SpecDefs.

(** What the check does establish: a path is read only when its absolute
    form starts, as a string, with the absolute repository root. *)
Lemma read_from_branch_string_prefix (st : repo_state) (tree : gmap string string) (file_name data : string) :
  read_from_branch st tree file_name = Ok data ->
  PyStr.startswith (PosixPath.abspath (rs_cwd st) file_name)
                   (PosixPath.abspath (rs_cwd st) (rs_working_dir st)) = true.
Proof.
  unfold read_from_branch. destruct (PyStr.startswith _ _); [done|]. cbn. discriminate.
Qed.

Example read_from_branch_dotdot_rejected :
  read_from_branch (RepoState "/tmp/repo" "/tmp/repo/recipes" [] ∅ ∅ ∅ [] [] [])
                   (<["README.md" := "readme"]> ∅) "../../etc/passwd"
  = Err (RuntimeError "File /tmp/etc/passwd not inside /tmp/repo").
Proof. vm_compute. reflexivity. Qed.

(** C1 (fails): the containment test is a string prefix test, so a sibling
    path such as /tmp/repoREADME.md, reached here through "..", passes it
    for the root /tmp/repo, and the branch's README.md is returned. *)
Theorem read_from_branch_sibling_escape :
  let st := RepoState "/tmp/repo" "/tmp/repo" [] ∅ ∅ ∅ [] [] [] in
  let tree := <["README.md" := "readme"]> (∅ : gmap string string) in
  resolves_inside (rs_cwd st) (rs_working_dir st) "../repoREADME.md" = false /\
  read_from_branch st tree "../repoREADME.md" = Ok "readme".
Proof. split; vm_compute; reflexivity. Qed.

End ReadFromBranch.

(* ------------------------------------------------------------------ *)
(** ** GitHandlerBase.branch_is_current *)

Section BranchIsCurrent.
Import GitHandler SpecDefs.

Lemma prefix_app (p s : string) : String.prefix p (p ++ s) = true.
Proof.
  induction p as [|c p IH]; [now destruct s|].
  change (match ascii_dec c c with left _ => String.prefix p (p ++ s) | right _ => false end = true).
  destruct (ascii_dec c c); [exact IH|contradiction].
Qed.

Lemma contains_of_prefix (p s : string) : String.prefix p s = true -> PyStr.contains p s = true.
Proof. destruct s; cbn; intros H; now rewrite H. Qed.


Lemma str_app_nil_r (s : string) : s ++ "" = s.
Proof. induction s as [|c s IH]; [reflexivity|exact (f_equal (String c) IH)]. Qed.

Lemma str_app_assoc (a b c : string) : a ++ b ++ c = (a ++ b) ++ c.
Proof. induction a as [|x a IH]; [reflexivity|exact (f_equal (String x) IH)]. Qed.

Lemma str_app_cons (c : ascii) (p s : string) : String c p ++ s = String c (p ++ s).
Proof. reflexivity. Qed.

Lemma prefix_app_r (p s t : string) : String.prefix p s = true -> String.prefix p (s ++ t) = true.
Proof.
  revert s. induction p as [|c p IH]; intros s H; [now destruct (s ++ t)|].
  destruct s as [|c' s]; [discriminate|]. rewrite str_app_cons. simpl in *.
  destruct (ascii_dec c c'); [now apply IH|discriminate].
Qed.

Lemma contains_app_l (p s t : string) : PyStr.contains p s = true -> PyStr.contains p (t ++ s) = true.
Proof.
  intros H. induction t as [|c t IH]; [exact H|]. rewrite str_app_cons.
  change (String.prefix p (String c (t ++ s)) || PyStr.contains p (t ++ s) = true).
  rewrite IH. apply orb_true_r.
Qed.

Lemma contains_app_r (p s t : string) : PyStr.contains p s = true -> PyStr.contains p (s ++ t) = true.
Proof.
  induction s as [|c s IH]; intros H.
  - change (String.prefix p "" || false = true) in H.
    apply orb_true_iff in H as [H|H]; [|discriminate].
    destruct p; [|discriminate]. now destruct t.
  - rewrite str_app_cons.
    change (String.prefix p (String c (s ++ t)) || PyStr.contains p (s ++ t) = true).
    change (String.prefix p (String c s) || PyStr.contains p s = true) in H.
    apply orb_true_iff in H as [H|H].
    + assert (Hp : String.prefix p (String c s ++ t) = true) by (now apply prefix_app_r).
      rewrite str_app_cons in Hp. now rewrite Hp.
    + rewrite IH by exact H. apply orb_true_r.
Qed.

Lemma contains_self (p : string) : PyStr.contains p p = true.
Proof. apply contains_of_prefix. pose proof (prefix_app p "") as H. now rewrite str_app_nil_r in H. Qed.

Lemma join_has (sep d : string) (ds : list string) :
  In d ds -> exists a b, PyStr.join sep ds = a ++ d ++ b.
Proof.
  induction ds as [|x ds IH]; [done|]. intros [->|Hin].
  - destruct ds as [|y ds]; cbn.
    + exists "", "". cbn. now rewrite str_app_nil_r.
    + exists "", (sep ++ PyStr.join sep (y :: ds)). done.
  - destruct (IH Hin) as (a & b & Hab).
    destruct ds as [|y ds]; [done|].
    exists (x ++ sep ++ a), b. change (PyStr.join sep (x :: y :: ds)) with (x ++ sep ++ PyStr.join sep (y :: ds)).
    rewrite Hab. now rewrite !str_app_assoc.
Qed.

(** The direction that holds: a latest entry decorated with the branch
    name makes the check succeed (when git's output is ASCII). *)
Lemma branch_is_current_decorated (git_log_1 : string -> string -> option log_entry)
    (branch_name path master : string) (e : log_entry) :
  git_log_1 (master ++ "..." ++ branch_name) path = Some e ->
  decode_ascii (oneline e) = Ok (oneline e) ->
  decorated_with branch_name e = true ->
  branch_is_current git_log_1 branch_name path master = Ok true.
Proof.
  intros Hlog Hdec Hd. unfold branch_is_current. rewrite Hlog, Hdec. f_equal.
  unfold decorated_with in Hd. apply existsb_exists in Hd as (d & Hin & Hd).
  destruct (join_has ", " d (le_decorations e) Hin) as (a & b & Hab).
  unfold oneline. destruct (le_decorations e) as [|d0 ds] eqn:Hds; [contradiction|].
  rewrite Hab.
  apply orb_true_iff in Hd as [Hd|Hd]; apply String.eqb_eq in Hd; subst d;
    apply contains_app_l, contains_app_r, contains_app_l, contains_app_r, contains_app_l, contains_app_r.
  - apply contains_self.
  - apply contains_app_l, contains_self.
Qed.

(** C2 (fails): the branch name is searched in the whole output line, the
    commit subject included; a master merge commit that only mentions the
    branch in its subject makes the check succeed. *)
Theorem branch_is_current_subject_match :
  let e := LogEntry "1a2b3c4" ["origin/master"; "master"] "Merge pull request #42 from bioconda/bump-foo" in
  decorated_with "bump-foo" e = false /\
  branch_is_current (fun _ _ => Some e) "bump-foo" "recipes/foo/meta.yaml" "master" = Ok true.
Proof. split; vm_compute; reflexivity. Qed.

End BranchIsCurrent.

(* ------------------------------------------------------------------ *)
(** ** GitHubAppHandler.parse_isotime *)

Section ParseIsotime.
Import IsoTime SpecDefs.

(** The part that holds: a stamp whose last character is not "Z" is
    refused with [ValueError] before any parsing. *)
Lemma parse_isotime_requires_Z (utc_offset : Z) (timestr : string) (c : ascii) :
  PyStr.last_char timestr = Ok c -> c <> "Z"%char ->
  parse_isotime utc_offset timestr = Err (ValueError "Time String '%s' not in UTC").
Proof.
  intros Hl Hc. unfold parse_isotime. rewrite Hl.
  destruct (Ascii.eqb_spec c "Z"); [contradiction|done].
Qed.

(** In a process whose local zone is UTC the value is the UTC epoch
    time of the parsed fields. *)
Lemma parse_isotime_utc_zone (timestr : string) (t : tm) :
  PyStr.last_char timestr = Ok "Z"%char -> strptime (PyStr.drop_last timestr) = Ok t ->
  parse_isotime 0 timestr = Ok (utc_seconds (tm_year t) (tm_mon t) (tm_mday t) (tm_hour t) (tm_min t) (tm_sec t)).
Proof.
  intros Hl Ht. unfold parse_isotime. rewrite Hl. cbn. rewrite Ht.
  unfold mktime, utc_seconds. f_equal. lia.
Qed.

(** C9 (fails): [time.mktime] reads the parsed fields as local time, so
    with the local zone at UTC+1 (TZ=Etc/GMT-1) the stamp
    2020-01-01T00:00:00Z, which is 1577836800 seconds after the epoch,
    yields 1577833200. *)
Theorem parse_isotime_local_zone_shift :
  parse_isotime 3600 "2020-01-01T00:00:00Z" = Ok 1577833200%Z /\
  utc_seconds 2020 1 1 0 0 0 = 1577836800%Z.
Proof. split; vm_compute; reflexivity. Qed.

End ParseIsotime.

(* ------------------------------------------------------------------ *)
(** ** GitHubHandler.is_member *)

Section IsMember.
Import GitHub Http PyDict.
Variable github : request -> response.



End IsMember.

(* ------------------------------------------------------------------ *)
(** ** Instances at concrete inputs *)

Module Instances.
Import App GitHub Http SpecDefs.

(** A JWT encoder and a GitHub that issues installation tokens. *)
Definition enc (iat exp : Z) (iss key : string) : string := "jwt-" ++ iss.
Definition token_server (rq : request) : response :=
  Response 201 (JObj [("expires_at", JStr "2020-01-01T01:00:00Z"); ("token", JStr "ghs_1")]).

Definition event : json :=
  JObj [("installation", JObj [("id", JInt 5)]);
        ("repository", JObj [("owner", JObj [("login", JStr "acme")]); ("name", JStr "widgets")])].

Definition dry_handler : gh_handler :=
  create_api_object (new_handler (JStr "tok") true (JStr "bioconda") (JStr "bioconda-recipes")) "bot".

Definition origin : GitHandler.remote := GitHandler.Remote "origin" ["https://github.com/bioconda/bioconda-recipes.git"].
Definition dry_git : GitHandler.handler := GitHandler.Handler true origin origin.

Definition no_push (remote refspec : string) : list GitHandler.push_info := [].

Definition live_handler : gh_handler :=
  create_api_object (new_handler (JStr "tok") false (JStr "bioconda") (JStr "bioconda-recipes")) "bot".

Definition not_found (rq : request) : response := Response 404 (JObj [("message", JStr "Not Found")]).

(** Public methods of [list] and the slots of GitPython's [IterableList]:
    names ordinary attribute lookup finds on [repo.remotes]. *)
Definition list_attrs : list string :=
  ["append"; "clear"; "copy"; "count"; "extend"; "index"; "insert"; "pop"; "remove";
   "reverse"; "sort"; "_id_attr"; "_prefix"].
Definition is_list_attr (n : string) : bool := existsb (String.eqb n) list_attrs.

(** A remote that happens to be called "count". *)
Definition count_remote : GitHandler.remote :=
  GitHandler.Remote "count" ["https://github.com/someone/bioconda-recipes.git"].

End Instances.

Section Witnesses.
Import App GitHub Http SpecDefs Instances.

Lemma get_installation_token_cache_witness :
  to_key (JInt 5) = Ok (KInt 5) /\ (0 <= 1000)%Z /\
  exists rq, app_requests (snd (get_installation_token "key" "42" enc token_server 0
                                  (JInt 5) None 1000 initial_state)) = [rq].
Proof.
  split; [reflexivity|split; [lia|]].
  destruct (get_installation_token_cache "key" "42" enc token_server 0 (JInt 5) (KInt 5) 1000
              initial_state eq_refl ltac:(lia)) as [Hmiss _].
  destruct (Hmiss I "jwt-42" (snd (get_app_jwt "key" "42" enc 1000 initial_state)) eq_refl) as [Hr _].
  eexists. exact Hr.
Defined.

Lemma dry_run_no_remote_effects_witness :
  dry_run dry_handler = true /\ GitHandler.dry_run dry_git = true /\
  fst (create_comment token_server dry_handler 7 "hi" (Net [] [])) = Ok (JInt (-1)).
Proof.
  split; [reflexivity|split; [reflexivity|]].
  destruct (dry_run_no_remote_effects token_server no_push dry_handler dry_git eq_refl eq_refl)
    as (_ & Hc & _).
  exact (proj1 (Hc 7%Z "hi" (Net [] []))).
Defined.

Lemma get_github_api_sessions_live_witness :
  handlers_live initial_state /\
  handlers_live (snd (get_github_api "app" "key" "42" enc token_server 0 event 1000 initial_state)).
Proof.
  split; [exact handlers_live_initial|].
  exact (proj1 (get_github_api_sessions_live "app" "key" "42" enc token_server 0 event 1000
                  initial_state handlers_live_initial)).
Defined.


Lemma get_remote_list_attribute_name_witness :
  is_list_attr "count" = true /\ In count_remote [origin; count_remote] /\
  GitHandler.r_name count_remote = "count" /\
  GitHandler.get_remote is_list_attr [origin; count_remote] "count" = Ok (GitHandler.ListAttribute "count").
Proof.
  split; [reflexivity|split; [right; left; reflexivity|split; [reflexivity|]]].
  apply (get_remote_list_attribute_name is_list_attr [origin; count_remote] "count" count_remote);
    [reflexivity|right; left; reflexivity|reflexivity].
Defined.

End Witnesses.

(* ------------------------------------------------------------------ *)
(** * Further properties of the handlers *)

Section GitMoreProps.
Import GitHandler GitMore PyStr.








(** [set_user] writes user.name, user.email (the no-reply address when no email is given) and user.signingkey when a key is given, and leaves every other configuration entry as it was. *)
Theorem set_user_config (user : string) (email key : option string) (c : config) :
  let c' := set_user user email key c in
  c' !! ("user", "name") = Some user /\
  c' !! ("user", "email") = Some (match email with
                                  | Some e => if e =? "" then user ++ "@users.noreply.github.com" else e
                                  | None => user ++ "@users.noreply.github.com"
                                  end) /\
  c' !! ("user", "signingkey") = (match key with Some k => Some k | None => c !! ("user", "signingkey") end) /\
  (forall k, k <> ("user", "name") -> k <> ("user", "email") -> k <> ("user", "signingkey") ->
     c' !! k = c !! k).
Proof.
  intros c'. subst c'. unfold set_user. cbv zeta.
  destruct key as [k|]; cbv beta iota.
  - split; [|split; [|split]].
    + rewrite !lookup_insert_ne by done. apply lookup_insert_eq.
    + rewrite lookup_insert_ne by done. rewrite lookup_insert_eq.
      destruct email as [e|]; cbn; [destruct (e =? "")|]; reflexivity.
    + apply lookup_insert_eq.
    + intros k' Hn He Hs. rewrite !lookup_insert_ne by congruence. reflexivity.
  - split; [|split; [|split]].
    + rewrite !lookup_insert_ne by done. apply lookup_insert_eq.
    + rewrite lookup_insert_eq.
      destruct email as [e|]; cbn; [destruct (e =? "")|]; reflexivity.
    + rewrite !lookup_insert_ne by done. reflexivity.
    + intros k' Hn He Hs. rewrite !lookup_insert_ne by congruence. reflexivity.
Qed.

End GitMoreProps.

Section BranchProps.
Import GitHandler GitMore.
Variable list_attr : string -> bool.
Variable fetch_master : string -> list string.




(** A branch named like an attribute of [IterableList] (e.g. "sort") is never looked up as a head: [get_local_branch] returns the attribute, and [prepare_branch] and [create_local_branch] fail with [AttributeError] without creating a head. *)
Theorem list_attribute_branch_names (h : handler) (b : string) (st : branch_state) :
  list_attr b = true ->
  fst (get_local_branch list_attr b st) = Ok (Some (ListAttr b)) /\
  (let r := prepare_branch list_attr fetch_master h b st in
   fst r = Err AttributeError /\ bs_heads (snd r) = bs_heads st /\ bs_active (snd r) = bs_active st) /\
  (let r := create_local_branch list_attr h b st in
   fst r = Err AttributeError /\ bs_heads (snd r) = bs_heads st).
Proof.
  intros Hb.
  unfold create_local_branch, prepare_branch, get_remote_branch, get_local_branch, il_contains,
    il_getitem, il_getattr, commit_of, blog.
  unfold_monad. rewrite Hb. cbn. done.
Qed.

End BranchProps.

Section DictProps.
Import PyDict.

Lemma find_map_ne (fs : list (string * json)) (k k' : string) (v : json) :
  k <> k' ->
  find (fun kv => fst kv =? k') (map (fun kv => if fst kv =? k then (k, v) else kv) fs) =
  find (fun kv => fst kv =? k') fs.
Proof.
  intros Hne. apply String.eqb_neq in Hne.
  induction fs as [|[k0 v0] fs IH]; [done|]. cbn.
  destruct (k0 =? k) eqn:E0; cbn.
  - apply String.eqb_eq in E0. subst k0. rewrite Hne. exact IH.
  - destruct (k0 =? k'); [reflexivity|exact IH].
Qed.

Lemma find_map_eq (fs : list (string * json)) (k : string) (v : json) :
  existsb (fun kv => fst kv =? k) fs = true ->
  find (fun kv => fst kv =? k) (map (fun kv => if fst kv =? k then (k, v) else kv) fs) = Some (k, v).
Proof.
  induction fs as [|[k0 v0] fs IH]; [discriminate|]. cbn. intros E.
  destruct (k0 =? k) eqn:E0; cbn.
  - rewrite String.eqb_refl. reflexivity.
  - rewrite E0. apply IH. exact E.
Qed.

Lemma find_app_new (fs : list (string * json)) (k k' : string) (v : json) :
  existsb (fun kv => fst kv =? k) fs = false ->
  find (fun kv => fst kv =? k') (fs ++ [(k, v)]) =
  if k =? k' then (match find (fun kv => fst kv =? k') fs with Some p => Some p | None => Some (k, v) end)
  else find (fun kv => fst kv =? k') fs.
Proof.
  induction fs as [|[k0 v0] fs IH]; cbn; intros E.
  - destruct (k =? k'); reflexivity.
  - apply orb_false_iff in E as [E0 E]. destruct (k0 =? k') eqn:E1.
    + apply String.eqb_eq in E1. subst k0. rewrite String.eqb_sym in E0. rewrite E0. reflexivity.
    + rewrite IH by exact E. reflexivity.
Qed.

Lemma getitem_setitem (fs : list (string * json)) (k k' : string) (v : json) :
  getitem (JObj (setitem fs k v)) k' = if k =? k' then Ok v else getitem (JObj fs) k'.
Proof.
  unfold getitem, setitem. destruct (k =? k') eqn:Ek.
  - apply String.eqb_eq in Ek. subst k'.
    destruct (existsb (fun kv => fst kv =? k) fs) eqn:E.
    + rewrite find_map_eq by exact E. reflexivity.
    + rewrite find_app_new by exact E. rewrite String.eqb_refl.
      destruct (find (fun kv => fst kv =? k) fs) as [[k1 v1]|] eqn:F; [|reflexivity].
      exfalso. apply find_some in F as [F1 F2]. cbn in F2.
      assert (existsb (fun kv => fst kv =? k) fs = true) by (apply existsb_exists; eauto).
      congruence.
  - apply String.eqb_neq in Ek.
    destruct (existsb (fun kv => fst kv =? k) fs) eqn:E.
    + rewrite find_map_ne by exact Ek. reflexivity.
    + rewrite find_app_new by exact E. apply String.eqb_neq in Ek. rewrite Ek. reflexivity.
Qed.

End DictProps.

Section GitHubProps.
Import Http PyDict GitHub GitHubMore.
Variable github : request -> response.

Ltac split_matches :=
  repeat match goal with
         | |- context [match ?x with _ => _ end] => destruct x
         end.

(** [get_prs] sends one GET to the pulls URL with the handler's template variables, where head, base, number and state are set exactly for the non-empty arguments (head as "user:branch" when a user is known), and returns the deciphered response. *)
Theorem get_prs_request (h : gh_handler) (a : api_obj) (from_branch from_user to_branch : option string)
    (number : option Z) (state : option issue_state) (n : net) :
  api h = Some a ->
  let r := get_prs github h from_branch from_user to_branch number state n in
  exists vars,
    requests (snd r) = Request "GET" PULLS vars JNull (OAuth (oauth_token a)) :: requests n /\
    fst r = decipher (github (Request "GET" PULLS vars JNull (OAuth (oauth_token a)))) /\
    getitem (JObj vars) "head" =
      match from_branch with
      | Some fb =>
          if fb =? "" then getitem (JObj (var_default h)) "head" else
          match (if truthy from_user then from_user else username h) with
          | Some u => if u =? "" then Ok (JStr fb) else Ok (JStr (u ++ ":" ++ fb))
          | None => Ok (JStr fb)
          end
      | None => getitem (JObj (var_default h)) "head"
      end /\
    getitem (JObj vars) "base" =
      match to_branch with
      | Some tb => if tb =? "" then getitem (JObj (var_default h)) "base" else Ok (JStr tb)
      | None => getitem (JObj (var_default h)) "base"
      end /\
    getitem (JObj vars) "number" =
      match number with
      | Some k => if (k =? 0)%Z then getitem (JObj (var_default h)) "number" else Ok (JStr (PyStr.str_Z k))
      | None => getitem (JObj (var_default h)) "number"
      end /\
    getitem (JObj vars) "state" =
      match state with
      | Some s => Ok (JStr (issue_state_name s))
      | None => getitem (JObj (var_default h)) "state"
      end /\
    (forall key, key <> "head" -> key <> "base" -> key <> "number" -> key <> "state" ->
       getitem (JObj vars) key = getitem (JObj (var_default h)) key).
Proof.
  intros Ha r. subst r. unfold get_prs, api_call. rewrite Ha. unfold_monad. cbn [fst snd requests].
  eexists. split; [reflexivity|]. split; [reflexivity|].
  unfold truthy.
  destruct from_branch as [fb|], from_user as [fu|], (username h) as [un|], to_branch as [tb|],
    number as [k|], state as [st|]; cbn [negb];
  repeat (cbn [negb truthy]; match goal with
                            | |- context [?u =? ""] => is_var u; destruct (u =? "")
                            | |- context [(?u =? 0)%Z] => is_var u; destruct (u =? 0)%Z
                            end);
  cbn [negb];
  (split; [|split; [|split; [|split]]]);
  try (intros key H1 H2 H3 H4;
       apply String.eqb_neq in H1, H2, H3, H4; rewrite String.eqb_sym in H1, H2, H3, H4);
  rewrite ?getitem_setitem; rewrite ?H1, ?H2, ?H3, ?H4; reflexivity.
Qed.


Ltac case_tests :=
  repeat (cbn [negb truthy]; match goal with
                            | |- context [?u =? ""] => is_var u; destruct (u =? "") eqn:?
                            | |- context [(?u =? 0)%Z] => is_var u; destruct (u =? 0)%Z eqn:?
                            | |- context [bool_decide (Some ?u = Some ?u)] =>
                                rewrite (bool_decide_eq_true_2 (Some u = Some u)) by reflexivity
                            | |- context [bool_decide (Some ?u = Some ?v)] =>
                                is_var u; is_var v; destruct (bool_decide (Some u = Some v))
                            | |- context [bool_decide (Some ?u = None)] =>
                                rewrite (bool_decide_eq_false_2 (Some u = None)) by discriminate
                            end);
  repeat match goal with E : (?u =? "") = true |- _ => apply String.eqb_eq in E; subst u end;
  rewrite ?String.eqb_refl; cbn [negb orb andb];
  try match goal with E : true = false |- _ => discriminate E
                    | E : ("" =? "") = false |- _ => discriminate E end.

(** A live [create_pr] logs the PR data, sends one POST to the pulls URL whose body has title, body, maintainer_can_modify, and head and base for the non-empty branches, and no other field; the head is prefixed with the user only when it differs from the handler's user. *)
Theorem create_pr_request (h : gh_handler) (a : api_obj) (title : string)
    (from_branch from_user to_branch body : option string) (mcm : bool) (n : net) :
  api h = Some a -> dry_run h = false ->
  let r := create_pr github h title from_branch from_user to_branch body mcm n in
  exists data,
    requests (snd r) = Request "POST" PULLS (var_default h) (JObj data) (OAuth (oauth_token a)) :: requests n /\
    fst r = decipher (github (Request "POST" PULLS (var_default h) (JObj data) (OAuth (oauth_token a)))) /\
    net_log (snd r) = LogRec INFO "Creating PR '%s'" [JStr title] :: LogRec DEBUG "PR data %s" [JObj data] :: net_log n /\
    getitem (JObj data) "title" = Ok (JStr title) /\
    getitem (JObj data) "body" = Ok (JStr (match body with Some b => b | None => "" end)) /\
    getitem (JObj data) "maintainer_can_modify" = Ok (JBool mcm) /\
    getitem (JObj data) "head" =
      match from_branch with
      | Some fb =>
          if fb =? "" then Err (KeyError "head") else
          Ok (JStr (match from_user with
                    | Some fu => if (fu =? "") || bool_decide (Some fu = username h) then fb else fu ++ ":" ++ fb
                    | None => fb
                    end))
      | None => Err (KeyError "head")
      end /\
    getitem (JObj data) "base" =
      match to_branch with
      | Some tb => if tb =? "" then Err (KeyError "base") else Ok (JStr tb)
      | None => Err (KeyError "base")
      end /\
    (forall key, key <> "title" -> key <> "body" -> key <> "maintainer_can_modify" ->
       key <> "head" -> key <> "base" -> getitem (JObj data) key = Err (KeyError key)).
Proof.
  intros Ha Hd r. subst r. unfold create_pr, api_call, log. rewrite Ha, Hd. unfold_monad. cbn [fst snd requests net_log].
  eexists. split; [reflexivity|]. split; [reflexivity|]. split; [reflexivity|].
  destruct from_branch as [fb|], from_user as [fu|], (username h) as [un|], to_branch as [tb|],
    body as [b|]; case_tests; cbn [negb orb]; try change ("" ++ b) with b;
  (split; [|split; [|split; [|split; [|split]]]]);
  try (intros key H1 H2 H3 H4 H5;
       apply String.eqb_neq in H1, H2, H3, H4, H5; rewrite String.eqb_sym in H1, H2, H3, H4, H5);
  rewrite ?getitem_setitem; rewrite ?H1, ?H2, ?H3, ?H4, ?H5; try reflexivity.
  all: unfold getitem; cbn [find fst]; rewrite ?H1, ?H2, ?H3, ?H4, ?H5; reflexivity.
Qed.


(** A live [modify_issue] sends one PATCH to the issue URL whose body holds labels, title and body exactly for the non-empty arguments, and returns the deciphered response. *)
Theorem modify_issue_live (h : gh_handler) (a : api_obj) (number : Z) (labels : option (list string))
    (title body : option string) (n : net) :
  api h = Some a -> dry_run h = false ->
  let data := (match labels with Some (l :: ls) => [("labels", JList (map JStr (l :: ls)))] | _ => [] end ++
               match title with Some t => if t =? "" then [] else [("title", JStr t)] | None => [] end ++
               match body with Some b => if b =? "" then [] else [("body", JStr b)] | None => [] end)%list in
  let rq := Request "PATCH" ISSUES (setitem (var_default h) "number" (JStr (PyStr.str_Z number)))
                    (JObj data) (OAuth (oauth_token a)) in
  modify_issue github h number labels title body n =
    (decipher (github rq), Net (rq :: requests n) (LogRec INFO "Modifying PR %s" [JInt number] :: net_log n)).
Proof.
  intros Ha Hd data rq. subst data rq. unfold modify_issue, api_call, log. rewrite Ha, Hd.
  unfold_monad. cbn [fst snd requests net_log].
  destruct labels as [[|l ls]|], title as [t|], body as [b|]; case_tests; reflexivity.
Qed.

(** In dry-run mode [modify_issue] sends nothing, logs the changes it would make, and returns {'number': number}. *)
Theorem modify_issue_dry (h : gh_handler) (number : Z) (labels : option (list string))
    (title body : option string) (n : net) :
  dry_run h = true ->
  let r := modify_issue github h number labels title body n in
  fst r = Ok (JObj [("number", JInt number)]) /\ requests (snd r) = requests n /\
  net_log (snd r) =
    (match body with Some b => if b =? "" then [] else [LogRec INFO "New Body:\n%s\n" [JStr b]] | None => [] end ++
     match labels with Some (l :: ls) => [LogRec INFO "New labels: %s" [JList (map JStr (l :: ls))]] | _ => [] end ++
     match title with Some t => if t =? "" then [] else [LogRec INFO "New title: %s" [JStr t]] | None => [] end ++
     LogRec INFO "Would modify PR %s" [JInt number] :: net_log n)%list.
Proof.
  intros Hd r. subst r. unfold modify_issue, log. rewrite Hd.
  unfold_monad. cbn [fst snd requests net_log].
  destruct labels as [[|l ls]|], title as [t|], body as [b|]; case_tests; repeat split.
Qed.

(** A live [create_comment] sends one POST with the comment body to the comments URL of the issue and returns the [id] field of the response. *)
Theorem create_comment_live (h : gh_handler) (a : api_obj) (number : Z) (body : string) (n : net) :
  api h = Some a -> dry_run h = false ->
  let rq := Request "POST" COMMENTS (setitem (var_default h) "number" (JStr (PyStr.str_Z number)))
                    (JObj [("body", JStr body)]) (OAuth (oauth_token a)) in
  create_comment github h number body n =
    (match decipher (github rq) with Ok res => getitem res "id" | Err e => Err e end,
     Net (rq :: requests n) (LogRec INFO "Creating comment on issue #%i" [JInt number] :: net_log n)).
Proof.
  intros Ha Hd rq. subst rq. unfold create_comment, api_call, log. rewrite Ha, Hd.
  unfold_monad. cbn [fst snd requests net_log].
  destruct (decipher _); reflexivity.
Qed.

(** Before [create_api_object] every method that needs the API fails with [AttributeError] and sends nothing. *)
Theorem api_missing_attribute_error (h : gh_handler) (n : net) :
  api h = None ->
  (forall user, user <> "" ->
     fst (is_member github h user n) = Err AttributeError /\ requests (snd (is_member github h user n)) = requests n) /\
  (forall fb fu tb num st,
     fst (get_prs github h fb fu tb num st n) = Err AttributeError /\
     snd (get_prs github h fb fu tb num st n) = n) /\
  (forall num,
     fst (get_pr_modified_files github h num n) = Err AttributeError /\
     snd (get_pr_modified_files github h num n) = n) /\
  (dry_run h = false ->
     (forall title fb fu tb body mcm,
        fst (create_pr github h title fb fu tb body mcm n) = Err AttributeError /\
        requests (snd (create_pr github h title fb fu tb body mcm n)) = requests n) /\
     (forall num labels title body,
        fst (modify_issue github h num labels title body n) = Err AttributeError /\
        requests (snd (modify_issue github h num labels title body n)) = requests n) /\
     (forall num body,
        fst (create_comment github h num body n) = Err AttributeError /\
        requests (snd (create_comment github h num body n)) = requests n)).
Proof.
  intros Ha. split; [|split; [|split]].
  - intros user Hu. apply String.eqb_neq in Hu. unfold is_member, api_call, log, catch.
    rewrite Hu, Ha. unfold_monad. cbn. auto.
  - intros. unfold get_prs, api_call. rewrite Ha. unfold_monad. auto.
  - intros. unfold get_pr_modified_files, api_call. rewrite Ha. unfold_monad. auto.
  - intros Hd. split; [|split]; intros; unfold create_pr, modify_issue, create_comment, api_call, log;
      rewrite Ha, Hd; unfold_monad; cbn [fst snd requests]; auto.
Qed.

(** [is_member], [get_prs] and [get_pr_modified_files] send only GET requests. *)
Theorem read_only_methods (h : gh_handler) (n : net) :
  (forall user, exists sent,
     requests (snd (is_member github h user n)) = (sent ++ requests n)%list /\ Forall (fun q => rq_method q = "GET") sent) /\
  (forall fb fu tb num st, exists sent,
     requests (snd (get_prs github h fb fu tb num st n)) = (sent ++ requests n)%list /\ Forall (fun q => rq_method q = "GET") sent) /\
  (forall num, exists sent,
     requests (snd (get_pr_modified_files github h num n)) = (sent ++ requests n)%list /\ Forall (fun q => rq_method q = "GET") sent).
Proof.
  split; [|split].
  - intros user. unfold is_member, api_call, log, catch. unfold_monad.
    destruct (user =? ""); [exists []; auto|].
    destruct (api h); cbn [fst snd requests].
    + destruct (decipher _) as [v|e]; cbn [fst snd requests];
        [|destruct (is_bad_request e)]; eexists [_]; (split; [reflexivity|repeat constructor]).
    + exists []; auto.
  - intros. unfold get_prs, api_call. unfold_monad.
    destruct (api h); cbn [fst snd requests]; [eexists [_]; (split; [reflexivity|repeat constructor])|exists []; auto].
  - intros. unfold get_pr_modified_files, api_call. unfold_monad.
    destruct (api h); cbn [fst snd requests]; [eexists [_]; (split; [reflexivity|repeat constructor])|exists []; auto].
Qed.

End GitHubProps.

Section GitEffects.
Import GitHandler.
Variable git_log_1 : string -> string -> option log_entry.
Variable push_result : string -> string -> list push_info.







End GitEffects.

Section AppEffects.
Import Http PyDict GitHub App AppMore.

Lemma event_get_fold_err (path : string) (items : list string) (e : exc) :
  fold_left (fun acc item =>
               match acc with
               | Ok d => match getitem d item with
                         | Ok v => Ok v
                         | Err _ => Err (KeyError ("No '" ++ path ++ "' in event"))
                         end
               | Err e => Err e
               end) items (Err e) = Err e.
Proof. induction items as [|i is IH]; [reflexivity|]. cbn. exact IH. Qed.

(** Every failure of [Event.get(path)] is a [KeyError] whose message starts with "No '<path>' in event". *)
Theorem event_get_error_message (data : json) (path : string) (e : exc) :
  App.event_get data path = Err e -> exists rest, e = KeyError ("No '" ++ path ++ "' in event" ++ rest).
Proof.
  unfold App.event_get. generalize data.
  induction (PyStr.split "/" path) as [|i is IH]; intros d; cbn; [discriminate|].
  destruct (getitem d i) as [v|e']; [apply IH|].
  rewrite event_get_fold_err. intros [= <-]. exists "". rewrite str_app_nil_r. reflexivity.
Qed.


Variables (app_name app_key app_id : string) (jwt_encode : Z -> Z -> string -> string -> string)
          (github : request -> response) (utc_offset : Z).

(** [GitHubAppHandler.__init__] mints a JWT valid for 600 seconds and starts with empty caches; [get_app_jwt] keeps handing out that JWT until 60 seconds before it expires. *)
Theorem app_handler_jwt_lifetime (now now' : Z) :
  (0 <= now)%Z ->
  let st0 := snd (new_app_handler app_key app_id jwt_encode now) in
  let tok0 := jwt_encode now (now + 600)%Z app_id app_key in
  jwt st0 = ((now + 600)%Z, tok0) /\ tokens st0 = ∅ /\ handlers st0 = ∅ /\ app_requests st0 = [] /\
  fst (get_app_jwt app_key app_id jwt_encode now' st0) =
    Ok (if (now' <=? now + 540)%Z then tok0 else jwt_encode now' (now' + 600)%Z app_id app_key).
Proof.
  intros Hnow st0 tok0. subst st0 tok0.
  unfold new_app_handler, get_app_jwt, log, JWT_RENEW_PERIOD, initial_state. unfold_monad. cbn.
  split; [reflexivity|split; [reflexivity|split; [reflexivity|split; [reflexivity|]]]].
  destruct (Z.eqb_spec (now + 600) 0); [lia|].
  destruct (Z.leb_spec now' (now + 540)); destruct (Z.ltb_spec (now + 600) (now' + 60)); cbn; try lia; reflexivity.
Qed.

(** A failing [get_installation_token] leaves the installation-token cache unchanged. *)
Theorem get_installation_token_failure_keeps_tokens (installation : json) (name : option json) (now : Z)
    (st : app_state) (e : exc) :
  fst (get_installation_token app_key app_id jwt_encode github utc_offset installation name now st) = Err e ->
  tokens (snd (get_installation_token app_key app_id jwt_encode github utc_offset installation name now st))
  = tokens st.
Proof.
  unfold get_installation_token, get_app_jwt, app_post, log, set_tokens, set_jwt. unfold_monad.
  destruct (to_key installation); cbn; [|done].
  destruct st as [[ex t] tks hs rqs lg]; cbn.
  repeat (case_match; simplify_eq/=); done.
Qed.

End AppEffects.

Section ApiCache.
Import Http PyDict GitHub App.
Variables (app_name app_key app_id : string) (jwt_encode : Z -> Z -> string -> string -> string)
          (github : request -> response) (utc_offset : Z).

(** The handler [get_github_api] returns is the one cached under its (installation, repository) key, no other key changes; a cached handler keeps its user, repository variables, dry-run flag and requester, and a new one is built from the event's owner and repository. *)
Theorem get_github_api_caches_returned (data : json) (now : Z) (st : app_state) (h : gh_handler) :
  let r := get_github_api app_name app_key app_id jwt_encode github utc_offset data now st in
  fst r = Ok h ->
  exists inst repo ki kr,
    event_get data "installation/id" = Ok inst /\ event_get data "repository/name" = Ok repo /\
    to_key inst = Ok ki /\ to_key repo = Ok kr /\
    handlers (snd r) !! (ki, kr) = Some h /\
    (forall k, k <> (ki, kr) -> handlers (snd r) !! k = handlers st !! k) /\
    match handlers st !! (ki, kr) with
    | Some old =>
        token h = token old /\ dry_run h = dry_run old /\ var_default h = var_default old /\
        username h = username old /\
        exists a a', api old = Some a /\ api h = Some a' /\ requester a' = requester a
    | None =>
        exists tok user, event_get data "repository/owner/login" = Ok user /\
          h = create_api_object (new_handler tok false user repo) app_name
    end.
Proof.
  intros r. subst r. unfold get_github_api. unfold_monad.
  destruct (event_get data "installation/id") as [inst|] eqn:Ei; cbn -[event_get get_installation_token]; [|discriminate].
  destruct (event_get data "repository/owner/login") as [user|] eqn:Eu; cbn -[event_get get_installation_token]; [|discriminate].
  destruct (event_get data "repository/name") as [repo|] eqn:Er; cbn -[event_get get_installation_token]; [|discriminate].
  destruct (to_key inst) as [ki|] eqn:Ki; cbn -[event_get get_installation_token]; [|discriminate].
  destruct (to_key repo) as [kr|] eqn:Kr; cbn -[event_get get_installation_token]; [|discriminate].
  pose proof (get_installation_token_handlers app_key app_id jwt_encode github utc_offset inst None now st) as Hh.
  destruct (handlers st !! (ki, kr)) as [old|] eqn:Eo;
  destruct (get_installation_token app_key app_id jwt_encode github utc_offset inst None now st)
    as [[tok|e] st1] eqn:G; cbn -[event_get] in Hh |- *; try discriminate.
  - unfold set_oauth_token. destruct (api old) as [a|] eqn:Ea; cbn -[event_get]; [|discriminate].
    intros [= <-]. exists inst, repo, ki, kr. do 4 (split; [first [reflexivity|assumption]|]).
    split; [rewrite lookup_insert_eq; reflexivity|].
    split; [intros k Hk; rewrite lookup_insert_ne by congruence; rewrite Hh; reflexivity|].
    rewrite Eo. do 4 (split; [reflexivity|]). exists a, (ApiObj tok (requester a)). split; [exact Ea|split; reflexivity].
  - intros [= <-]. exists inst, repo, ki, kr. do 4 (split; [first [reflexivity|assumption]|]).
    split; [rewrite lookup_insert_eq; reflexivity|].
    split; [intros k Hk; rewrite lookup_insert_ne by congruence; rewrite Hh; reflexivity|].
    rewrite Eo. exists tok, user. split; reflexivity.
Qed.

End ApiCache.

(* ------------------------------------------------------------------ *)
(** ** Further properties at concrete inputs *)

Section FurtherWitnesses.
Import GitHandler GitMore App AppMore GitHub GitHubMore Http PyDict Instances.




Lemma list_attribute_branch_names_witness :
  is_list_attr "sort" = true /\
  fst (prepare_branch is_list_attr (fun _ => ["c1"]) dry_git "sort" (BranchState ∅ ∅ ∅ "master" []))
    = Err AttributeError.
Proof.
  split; [reflexivity|].
  exact (proj1 (proj1 (proj2 (list_attribute_branch_names is_list_attr (fun _ => ["c1"]) dry_git "sort"
                                 (BranchState ∅ ∅ ∅ "master" []) eq_refl)))).
Defined.

Lemma get_prs_request_witness :
  api live_handler = Some (ApiObj (JStr "tok") "bot") /\
  exists vars, requests (snd (get_prs not_found live_handler (Some "fix") None (Some "master") None None
                                (Net [] []))) = [Request "GET" PULLS vars JNull (OAuth (JStr "tok"))].
Proof.
  split; [reflexivity|].
  destruct (get_prs_request not_found live_handler (ApiObj (JStr "tok") "bot") (Some "fix") None
              (Some "master") None None (Net [] []) eq_refl) as (vars & H & _).
  exists vars. exact H.
Defined.

Lemma create_pr_request_witness :
  api live_handler = Some (ApiObj (JStr "tok") "bot") /\ dry_run live_handler = false /\
  exists data, requests (snd (create_pr not_found live_handler "Update" (Some "fix") None (Some "master")
                                None true (Net [] []))) =
                 [Request "POST" PULLS (var_default live_handler) (JObj data) (OAuth (JStr "tok"))].
Proof.
  split; [reflexivity|split; [reflexivity|]].
  destruct (create_pr_request not_found live_handler (ApiObj (JStr "tok") "bot") "Update" (Some "fix") None
              (Some "master") None true (Net [] []) eq_refl eq_refl) as (data & H & _).
  exists data. exact H.
Defined.

Lemma modify_issue_live_witness :
  api live_handler = Some (ApiObj (JStr "tok") "bot") /\ dry_run live_handler = false /\
  fst (modify_issue not_found live_handler 3 None (Some "t") None (Net [] [])) = Err (HTTPError BadRequest 404).
Proof.
  split; [reflexivity|split; [reflexivity|]].
  rewrite (modify_issue_live not_found live_handler (ApiObj (JStr "tok") "bot") 3 None (Some "t") None
             (Net [] []) eq_refl eq_refl).
  vm_compute. reflexivity.
Defined.

Lemma modify_issue_dry_witness :
  dry_run dry_handler = true /\
  net_log (snd (modify_issue not_found dry_handler 3 None (Some "t") None (Net [] []))) =
    [LogRec INFO "New title: %s" [JStr "t"]; LogRec INFO "Would modify PR %s" [JInt 3]].
Proof.
  split; [reflexivity|].
  exact (proj2 (proj2 (modify_issue_dry not_found dry_handler 3 None (Some "t") None (Net [] []) eq_refl))).
Defined.

Lemma create_comment_live_witness :
  api live_handler = Some (ApiObj (JStr "tok") "bot") /\ dry_run live_handler = false /\
  fst (create_comment not_found live_handler 3 "hi" (Net [] [])) = Err (HTTPError BadRequest 404).
Proof.
  split; [reflexivity|split; [reflexivity|]].
  rewrite (create_comment_live not_found live_handler (ApiObj (JStr "tok") "bot") 3 "hi" (Net [] [])
             eq_refl eq_refl).
  vm_compute. reflexivity.
Defined.

Lemma api_missing_attribute_error_witness :
  api (new_handler (JStr "tok") false (JStr "bioconda") (JStr "bioconda-recipes")) = None /\
  fst (get_prs not_found (new_handler (JStr "tok") false (JStr "bioconda") (JStr "bioconda-recipes"))
         None None None None None (Net [] [])) = Err AttributeError.
Proof.
  split; [reflexivity|].
  destruct (api_missing_attribute_error not_found
              (new_handler (JStr "tok") false (JStr "bioconda") (JStr "bioconda-recipes")) (Net [] [])
              eq_refl) as (_ & H & _).
  exact (proj1 (H None None None None None)).
Defined.

Lemma app_handler_jwt_lifetime_witness :
  (0 <= 1000)%Z /\
  fst (get_app_jwt "key" "42" enc 1500 (snd (new_app_handler "key" "42" enc 1000))) = Ok (enc 1000 1600 "42" "key").
Proof.
  split; [lia|].
  exact (proj2 (proj2 (proj2 (proj2 (app_handler_jwt_lifetime "key" "42" enc 1000 1500 ltac:(lia)))))).
Defined.



Lemma event_get_error_message_witness :
  event_get event "pull_request/number" = Err (KeyError "No 'pull_request/number' in event") /\
  exists rest, KeyError "No 'pull_request/number' in event" =
               KeyError ("No '" ++ "pull_request/number" ++ "' in event" ++ rest).
Proof.
  split; [reflexivity|].
  exact (event_get_error_message event "pull_request/number" _ eq_refl).
Defined.

Lemma get_installation_token_failure_keeps_tokens_witness :
  fst (get_installation_token "key" "42" enc not_found 0 (JInt 5) None 1000 initial_state)
    = Err (HTTPError BadRequest 404) /\
  tokens (snd (get_installation_token "key" "42" enc not_found 0 (JInt 5) None 1000 initial_state)) = ∅.
Proof.
  split; [vm_compute; reflexivity|].
  exact (get_installation_token_failure_keeps_tokens "key" "42" enc not_found 0 (JInt 5) None 1000
           initial_state (HTTPError BadRequest 404) ltac:(vm_compute; reflexivity)).
Defined.

Lemma get_github_api_caches_returned_witness :
  let h := create_api_object (new_handler (JStr "ghs_1") false (JStr "acme") (JStr "widgets")) "app" in
  fst (get_github_api "app" "key" "42" enc token_server 0 event 1000 initial_state) = Ok h /\
  handlers (snd (get_github_api "app" "key" "42" enc token_server 0 event 1000 initial_state))
    !! (KInt 5, KStr "widgets") = Some h.
Proof.
  intros h. assert (Hr : fst (get_github_api "app" "key" "42" enc token_server 0 event 1000 initial_state) = Ok h)
    by (vm_compute; reflexivity).
  split; [exact Hr|].
  destruct (get_github_api_caches_returned "app" "key" "42" enc token_server 0 event 1000 initial_state h Hr)
    as (inst & repo & ki & kr & Ei & Er & Ki & Kr & H & _).
  vm_compute in Ei, Er. injection Ei as <-. injection Er as <-.
  vm_compute in Ki, Kr. injection Ki as <-. injection Kr as <-.
  exact H.
Defined.

End FurtherWitnesses.
